(** * A shallow embedding of the chapter-2 and chapter-3 examples

    Source files covered:
    - [examples/ch03/models.py]: [load_text_model], [OllamaModel.__call__],
      [DummyTokenizer.apply_chat_template], [generate_text];
    - [examples/ch02/2-2-mod.py]: [UserCreate.validate_password],
      [create_user_controller].

    Python strings are sequences of Unicode code points, so they are lists
    of [N]; the string methods the source calls ([in], [find], [split],
    [strip], [startswith], slicing) are written out with Python's
    semantics.  External collaborators (the HTTP transport, the local
    inference runtime, its tokenizer) are oracles of a [World] record, and
    every call to one of them is logged as an [event]. *)

From Stdlib Require Import ZArith NArith List Ascii String Bool Lia PrimFloat.
From stdpp Require Import base option list countable gmap.
Import ListNotations.

Local Open Scope Z_scope.
#[local] Set Warnings "-register-all,-inexact-float".

(** ** Python strings *)

Module PyStr.

(** A character is its code point. *)
Definition char : Type := N.
Definition str : Type := list char.

(** The source's string literals are all ASCII. *)
Definition py (s : string) : str := map N_of_ascii (list_ascii_of_string s).

(** [len(s)] *)
Definition len (s : str) : Z := Z.of_nat (length s).

(** [c.isspace()] for one character: CPython's [_PyUnicode_IsWhitespace]. *)
Definition isspace (c : char) : bool :=
  ((9 <=? c) && (c <=? 13) || (28 <=? c) && (c <=? 32)
   || (c =? 133) || (c =? 160) || (c =? 5760)
   || (8192 <=? c) && (c <=? 8202)
   || (c =? 8232) || (c =? 8233) || (c =? 8239) || (c =? 8287)
   || (c =? 12288))%N.

(** [s.startswith(prefix)] *)
Fixpoint startswith (s prefix : str) {struct prefix} : bool :=
  match prefix, s with
  | [], _ => true
  | _ :: _, [] => false
  | p :: prefix', c :: s' => (c =? p)%N && startswith s' prefix'
  end.

(** Index of the first occurrence of [sub] in [s], if any. *)
Fixpoint find_nat (s sub : str) : option nat :=
  if startswith s sub then Some 0%nat
  else match s with
       | [] => None
       | _ :: s' => S <$> find_nat s' sub
       end.

(** [s.find(sub)]: the lowest index, or [-1]. *)
Definition find (s sub : str) : Z :=
  match find_nat s sub with
  | Some i => Z.of_nat i
  | None => -1
  end.

(** [sub in s] *)
Definition contains (sub s : str) : bool := bool_decide (find s sub ≠ -1).

(** Python's slice bounds: a negative index counts from the end, and the
    result is clipped to [0 .. len]. *)
Definition slice_index (n i : Z) : nat :=
  Z.to_nat (if i <? 0 then Z.max 0 (n + i) else Z.min i n).

(** [s[:i]] *)
Definition slice_to (s : str) (i : Z) : str := take (slice_index (len s) i) s.
(** [s[i:]] *)
Definition slice_from (s : str) (i : Z) : str := drop (slice_index (len s) i) s.

(** [s.lstrip()], [s.rstrip()], [s.strip()] with no argument. *)
Fixpoint lstrip (s : str) : str :=
  match s with
  | c :: s' => if isspace c then lstrip s' else s
  | [] => []
  end.
Definition rstrip (s : str) : str := rev (lstrip (rev s)).
Definition strip (s : str) : str := rstrip (lstrip s).

(** [s.split(sep)] for a non-empty [sep]: cut at each occurrence found
    scanning from the left, occurrences not overlapping.  The recursion is
    on a bound on the number of cuts; [split] below gives it [length s],
    which is never exhausted ([split_fuel_enough]).  An empty separator
    raises [ValueError] in Python; the source only splits on non-empty
    literals, and [split] is used on those only. *)
Fixpoint split_fuel (fuel : nat) (s sep : str) : list str :=
  match fuel with
  | O => [s]
  | S fuel' =>
      match find_nat s sep with
      | None => [s]
      | Some i => take i s :: split_fuel fuel' (drop (i + length sep) s) sep
      end
  end.
Definition split (s sep : str) : list str := split_fuel (length s) s sep.

End PyStr.
Import PyStr.

(** ** Exceptions, values and effects *)

(** The exceptions the modelled code can meet: the one it raises itself
    ([Exception], [ValueError]), those of the built-in operations it uses,
    and whatever an external collaborator raises ([Foreign]). *)
Inductive exn : Type :=
| Exception (msg : str)
| ValueError (msg : str)
| IndexError
| KeyError
| AttributeError
| TypeError
| Foreign (cls : string) (msg : str).

(** Python values as they come back from [response.json()] and from the
    local runtime. *)
Inductive pyval : Type :=
| PNone
| PBool (b : bool)
| PInt (z : Z)
| PFloat (f : float)
| PStr (s : str)
| PList (l : list pyval)
| PDict (d : list (str * pyval)).

(** A chat message, [{"role": ..., "content": ...}]. *)
Record Message : Type := { role : str; content : str }.

(** A value of the JSON request body. *)
Inductive field : Type :=
| FStr (s : str)
| FMessages (l : list Message)
| FFloat (f : float)
| FInt (z : Z)
| FBool (b : bool).

(** What [requests.post] returns: the status, the raw body, and the outcome
    of [response.json()]. *)
Record Response : Type := {
  status_code : Z;
  text : str;
  json : exn + pyval
}.

(** A call that leaves this program. *)
Inductive event : Type :=
| EvHttpPost (url : str) (body : gmap str field)
| EvPipelineNew (task model : str)
| EvLocalInference (model prompt : str).

Definition result (A : Type) : Type := exn + A.

(** Computations log their external calls and may raise. *)
Definition M (A : Type) : Type := list event * result A.

#[export] Instance result_ret : MRet result := λ A x, inr x.
#[export] Instance result_bind : MBind result := λ A B f m,
  match m with
  | inl e => inl e
  | inr x => f x
  end.
#[export] Instance result_fmap : FMap result := λ A B f m,
  match m with
  | inl e => inl e
  | inr x => inr (f x)
  end.
#[export] Instance M_ret : MRet M := λ A x, ([], inr x).
#[export] Instance M_bind : MBind M := λ A B f m,
  match m with
  | (l, inl e) => (l, inl e)
  | (l, inr x) => let '(l', r) := f x in (l ++ l', r)
  end.

Definition raise {A : Type} (e : exn) : M A := ([], inl e).
Definition lift {A : Type} (r : result A) : M A := ([], r).
Definition trace {A : Type} (m : M A) : list event := m.1.
Definition outcome {A : Type} (m : M A) : result A := m.2.

(** [l[i]] for a list and a non-negative literal index. *)
Definition index {A : Type} (l : list A) (i : nat) : result A :=
  match l !! i with
  | Some x => inr x
  | None => inl IndexError
  end.

(** [l[-1]] *)
Definition index_last {A : Type} (l : list A) : result A :=
  match last l with
  | Some x => inr x
  | None => inl IndexError
  end.

(** The external collaborators.  The local runtime is addressed by the model
    name its pipeline was built with. *)
Record World : Type := {
  requests_post : str → gmap str field → result Response;
  hf_pipeline : str → str → result unit;
  hf_apply_chat_template : str → list Message → bool → bool → result str;
  hf_call : str → str → float → option Z → bool → option Z → option float →
            result pyval
}.

Definition is_http_post (ev : event) : bool :=
  match ev with EvHttpPost _ _ => true | _ => false end.
Definition is_local_inference (ev : event) : bool :=
  match ev with EvLocalInference _ _ => true | _ => false end.
Definition is_pipeline_new (ev : event) : bool :=
  match ev with EvPipelineNew _ _ => true | _ => false end.

(** ** [examples/ch03/models.py] *)

Module Models.

Definition nl : str := [10%N].

(** The role tags and reasoning markers the source spells out. *)
Definition SYSTEM_TAG : str := py "<|system|>".
Definition USER_TAG : str := py "<|user|>".
Definition ASSISTANT_TAG : str := py "<|assistant|>".
Definition THINK_START : str := py "<think>".
Definition THINK_END : str := py "</think>".
Definition OLLAMA_PREFIX : str := py "ollama:".

(** Module-level [system_prompt] (lines 9-13): it starts and ends with a
    newline. *)
Definition system_prompt : str :=
  nl ++ py "Your name is FastAPI bot and you are a helpful" ++ nl
     ++ py "chatbot responsible for teaching FastAPI to your users." ++ nl
     ++ py "Always respond in markdown." ++ nl.

(** *** [DummyTokenizer.apply_chat_template] (lines 123-145) *)

(** The loop body: one message appended to [formatted_prompt]. *)
Definition append_message (formatted_prompt : str) (message : Message) : str :=
  if bool_decide (role message = py "system") then
    formatted_prompt ++ SYSTEM_TAG ++ nl ++ content message ++ nl
  else if bool_decide (role message = py "user") then
    formatted_prompt ++ USER_TAG ++ nl ++ content message ++ nl
  else if bool_decide (role message = py "assistant") then
    formatted_prompt ++ ASSISTANT_TAG ++ nl ++ content message ++ nl
  else formatted_prompt.

Definition apply_chat_template
    (messages : list Message) (tokenize add_generation_prompt : bool) : str :=
  let formatted_prompt := fold_left append_message messages [] in
  if add_generation_prompt then formatted_prompt ++ ASSISTANT_TAG ++ nl
  else formatted_prompt.

(** *** [OllamaModel] (lines 44-117) *)

Record OllamaModel : Type := { model_name : str; base_url : str }.

(** [OllamaModel(model_name=...)] with the default [base_url]. *)
Definition OllamaModel_init (name : str) : OllamaModel :=
  {| model_name := name; base_url := py "http://localhost:11434" |}.

(** Lines 69-83: the message list re-parsed from the formatted prompt. *)
Definition extract_messages (prompt : str) : result (list Message) :=
  let messages := [] in
  messages ←
    (if contains SYSTEM_TAG prompt then
       after ← index (split prompt (SYSTEM_TAG ++ nl)) 1;
       before ← index (split after (nl ++ USER_TAG)) 0;
       let system_content := strip before in
       mret (messages ++ [{| role := py "system"; content := system_content |}])
     else mret messages);
  messages ←
    (if contains USER_TAG prompt then
       after ← index (split prompt (USER_TAG ++ nl)) 1;
       before ← index (split after (nl ++ ASSISTANT_TAG)) 0;
       let user_content := strip before in
       mret (messages ++ [{| role := py "user"; content := user_content |}])
     else mret messages);
  mret (match messages with
        | [] => messages ++ [{| role := py "user"; content := prompt |}]
        | _ :: _ => messages
        end).

(** Lines 86-99: the JSON request body. *)
Definition build_payload (self : OllamaModel) (messages : list Message)
    (temperature : float) (max_new_tokens : option Z)
    (top_p : option float) (top_k : option Z) : gmap str field :=
  let payload : gmap str field :=
    <[py "stream" := FBool false]>
      (<[py "temperature" := FFloat temperature]>
         (<[py "messages" := FMessages messages]>
            (<[py "model" := FStr (model_name self)]> ∅))) in
  let payload :=
    match max_new_tokens with
    | Some n => <[py "max_tokens" := FInt n]> payload
    | None => payload
    end in
  let payload :=
    match top_p with
    | Some p => <[py "top_p" := FFloat p]> payload
    | None => payload
    end in
  match top_k with
  | Some k => <[py "top_k" := FInt k]> payload
  | None => payload
  end.

(** Lines 110-113 on a string: the reasoning trace cut out. *)
Definition strip_think (generated_text : str) : str :=
  if contains THINK_START generated_text && contains THINK_END generated_text
  then
    let think_start := find generated_text THINK_START in
    let think_end := find generated_text THINK_END + len THINK_END in
    slice_to generated_text think_start
      ++ strip (slice_from generated_text think_end)
  else generated_text.

(** [d.get(key, default)] on a dict. *)
Fixpoint dict_get (d : list (str * pyval)) (key : str) (default : pyval) : pyval :=
  match d with
  | [] => default
  | (k, v) :: d' => if bool_decide (k = key) then v else dict_get d' key default
  end.

(** [v.get(key, default)]: only a dict has [get]. *)
Definition py_get (v : pyval) (key : str) (default : pyval) : result pyval :=
  match v with
  | PDict d => inr (dict_get d key default)
  | _ => inl AttributeError
  end.

Definition is_str (s : str) (v : pyval) : bool :=
  match v with PStr s' => bool_decide (s' = s) | _ => false end.

(** [sub in v] for a string literal [sub]. *)
Definition py_in (sub : str) (v : pyval) : result bool :=
  match v with
  | PStr s => inr (contains sub s)
  | PList l => inr (existsb (is_str sub) l)
  | PDict d => inr (existsb (λ kv, bool_decide (kv.1 = sub)) d)
  | _ => inl TypeError
  end.

(** Lines 110-113 on whatever [message.content] held: a string is cut by
    [strip_think]; a list or dict holding both markers has no [find]. *)
Definition remove_think (generated_text : pyval) : result pyval :=
  match generated_text with
  | PStr s => inr (PStr (strip_think s))
  | _ =>
      has_start ← py_in THINK_START generated_text;
      has_end ← (if has_start then py_in THINK_END generated_text
                 else mret false);
      if has_start && has_end then inl AttributeError else mret generated_text
  end.

(** Lines 104-117: what is made of the response. *)
Definition handle_response (response : Response) : result pyval :=
  if status_code response =? 200 then
    result ← json response;
    message ← py_get result (py "message") (PDict []);
    generated_text ← py_get message (py "content") (PStr (py ""));
    generated_text ← remove_think generated_text;
    mret (PList [PDict [(py "generated_text", generated_text)]])
  else inl (Exception (py "Ollama API error: " ++ text response)).

(** Line 102: [requests.post(url, json=payload)]. *)
Definition post (w : World) (url : str) (payload : gmap str field) : M Response :=
  ([EvHttpPost url payload], requests_post w url payload).

(** [OllamaModel.__call__] (lines 52-117). *)
Definition OllamaModel_call (w : World) (self : OllamaModel) (prompt : str)
    (temperature : float) (max_new_tokens : option Z) (do_sample : bool)
    (top_k : option Z) (top_p : option float) : M pyval :=
  messages ← lift (extract_messages prompt);
  let payload :=
    build_payload self messages temperature max_new_tokens top_p top_k in
  response ← post w (base_url self ++ py "/api/chat") payload;
  lift (handle_response response).

(** *** [load_text_model] (lines 18-41) *)

(** What [load_text_model] returns: the runtime's pipeline, known here by
    the model name it was built with, or the [OllamaModel] wrapper. *)
Inductive Pipe : Type :=
| HFPipeline (model : str)
| Ollama (self : OllamaModel).

(** Lines 35-40: [pipeline("text-generation", model=model_name, ...)]. *)
Definition pipeline (w : World) (task model : str) : M Pipe :=
  ([EvPipelineNew task model],
   _ ← hf_pipeline w task model; mret (HFPipeline model)).

Definition load_text_model (w : World) (model_name : str) : M Pipe :=
  if startswith model_name OLLAMA_PREFIX then
    ollama_model_name ← lift (index (split model_name OLLAMA_PREFIX) 1);
    mret (Ollama (OllamaModel_init ollama_model_name))
  else
    pipe ← pipeline w (py "text-generation") model_name;
    mret pipe.

(** *** [generate_text] (lines 148-188) *)

(** [pipe.tokenizer.apply_chat_template(...)] *)
Definition tokenizer_apply_chat_template (w : World) (pipe : Pipe)
    (messages : list Message) (tokenize add_generation_prompt : bool) : M str :=
  match pipe with
  | Ollama _ => mret (apply_chat_template messages tokenize add_generation_prompt)
  | HFPipeline model =>
      lift (hf_apply_chat_template w model messages tokenize add_generation_prompt)
  end.

(** [pipe(formatted_prompt, ...)] *)
Definition pipe_call (w : World) (pipe : Pipe) (prompt : str)
    (temperature : float) (max_new_tokens : option Z) (do_sample : bool)
    (top_k : option Z) (top_p : option float) : M pyval :=
  match pipe with
  | Ollama self =>
      OllamaModel_call w self prompt temperature max_new_tokens do_sample
        top_k top_p
  | HFPipeline model =>
      ([EvLocalInference model prompt],
       hf_call w model prompt temperature max_new_tokens do_sample top_k top_p)
  end.

(** [v[i]] for a literal index [i >= 0]. *)
Definition getitem_index (v : pyval) (i : nat) : result pyval :=
  match v with
  | PList l => index l i
  | PStr s => PStr <$> index ((λ c, [c]) <$> s) i
  | PDict _ => inl KeyError
  | _ => inl TypeError
  end.

Fixpoint dict_lookup (d : list (str * pyval)) (key : str) : result pyval :=
  match d with
  | [] => inl KeyError
  | (k, v) :: d' => if bool_decide (k = key) then inr v else dict_lookup d' key
  end.

(** [v[key]] for a string key. *)
Definition getitem_key (v : pyval) (key : str) : result pyval :=
  match v with
  | PDict d => dict_lookup d key
  | _ => inl TypeError
  end.

Definition isinstance_OllamaModel (pipe : Pipe) : bool :=
  match pipe with Ollama _ => true | HFPipeline _ => false end.

(** The end-of-turn boundary of line 186. *)
Definition TURN_BOUNDARY : str := py "</s>" ++ nl ++ ASSISTANT_TAG ++ nl.

Definition generate_text (w : World) (pipe : Pipe) (prompt : str)
    (temperature : float) : M pyval :=
  let messages :=
    [ {| role := py "system"; content := system_prompt |};
      {| role := py "user"; content := prompt |} ] in
  formatted_prompt ← tokenizer_apply_chat_template w pipe messages false true;
  predictions ←
    pipe_call w pipe formatted_prompt temperature (Some 256) true (Some 50)
      (Some 0.95%float);
  if isinstance_OllamaModel pipe then
    first ← lift (getitem_index predictions 0);
    output ← lift (getitem_key first (py "generated_text"));
    mret output
  else
    first ← lift (getitem_index predictions 0);
    generated ← lift (getitem_key first (py "generated_text"));
    match generated with
    | PStr s => lift (PStr <$> index_last (split s TURN_BOUNDARY))
    | _ => raise AttributeError
    end.

End Models.

(** ** [examples/ch02/2-2-mod.py] *)

Module UserApi.

Record UserCreate : Type := { username : str; password : str }.

Section Validation.

(** [char.isdigit()] and [char.isupper()] read the Unicode character
    database of the interpreter, which is no part of the repository:
    they are parameters of the validator. *)
Variables isdigit isupper : char → bool.

(** [UserCreate.validate_password] (lines 34-42). *)
Definition validate_password (value : str) : result str :=
  if len value <? 8 then
    inl (ValueError (py "Password must be at least 8 characters long"))
  else if negb (existsb isdigit value) then
    inl (ValueError (py "Password must contain at least one digit"))
  else if negb (existsb isupper value) then
    inl (ValueError (py "Password must contain at least one uppercase letter"))
  else inr value.

(** Building the request model runs the field validator; the framework
    hands the controller only a model that passed. *)
Definition UserCreate_validate (name pass : str) : result UserCreate :=
  value ← validate_password pass;
  mret {| username := name; password := value |}.

(** [create_user_controller] (lines 55-57). *)
Definition create_user_controller (user : UserCreate) : M pyval :=
  mret (PDict [ (py "name", PStr (username user));
                (py "message", PStr (py "Account successfully created")) ]).

(** [POST /users] with a body of two strings. *)
Definition post_users (name pass : str) : M pyval :=
  user ← lift (UserCreate_validate name pass);
  create_user_controller user.

End Validation.

(** The two tables on ASCII, for running the validator on examples. *)
Definition ascii_isdigit (c : char) : bool := ((48 <=? c) && (c <=? 57))%N.
Definition ascii_isupper (c : char) : bool := ((65 <=? c) && (c <=? 90))%N.

End UserApi.

(** ** [examples/ch03/main.py] *)

Module Main.
Import Models.

(** [root] (lines 8-10). *)
Definition root : pyval :=
  PDict [(py "message",
          PStr (py "Welcome to the text generation API. Use /generate/text?prompt=your_prompt to generate text."))].

(** [serve_language_model_controller] (lines 12-16); [generate_text] is
    called with its default temperature. *)
Definition serve_language_model_controller (w : World) (prompt : str) : M pyval :=
  pipe ← load_text_model w (py "ollama:qwen3:0.6b");
  output ← generate_text w pipe prompt 0.7%float;
  mret output.

End Main.

(** ** [chat_controller] of [examples/ch02/2-1-mod.py] and [2-2-mod.py] *)

Module ChatApi.

(** What the chat-completion client hands back, as far as the controller
    reads it: [response.choices[i].message.content], which may be [None]. *)
Record Choice : Type := { message_content : option str }.
Record ChatCompletion : Type := { choices : list Choice }.

(** [openai_client.chat.completions.create(model=..., messages=...)]: the
    client is an external collaborator. *)
Definition Client : Type := str → list Message → result ChatCompletion.

(** Lines 17-19 of both files: a missing or empty key stops the start-up. *)
Definition check_api_key (openai_api_key : option str) : result str :=
  match openai_api_key with
  | Some (c :: key) => inr (c :: key)
  | _ => inl (ValueError (py "OPENAI_API_KEY not found in environment variables"))
  end.

(** [root_controller] *)
Definition root_controller : pyval :=
  PDict [(py "status", PStr (py "healthy"))].

(** [chat_controller] (2-1-mod.py lines 30-40, 2-2-mod.py lines 59-69);
    [None.strip()] raises [AttributeError]. *)
Definition chat_controller (create : Client) (prompt : str) : result pyval :=
  response ←
    create (py "gpt-3.5-turbo")
      [ {| role := py "system"; content := py "You are a helpful assistant." |};
        {| role := py "user"; content := prompt |} ];
  first ← index (choices response) 0;
  statement ←
    match message_content first with
    | Some text => inr (strip text)
    | None => inl AttributeError
    end;
  mret (PDict [(py "statement", PStr statement)]).

End ChatApi.

(** ** [examples/ch02/2-4-mod.py] *)

Module MessagesApi.

(** The two tables, a row per record, in row-id order.  Every column but
    the primary key is nullable. *)
Record UserModel : Type := {
  id : Z;
  email : option str;
  name : option str
}.

Record MessageModel : Type := {
  message_id : Z;
  message_content : option str;
  user_id : option Z
}.

Record Database : Type := {
  users : list UserModel;
  messages : list MessageModel
}.

(** [HTTPException(status_code=..., detail=...)] *)
Inductive HTTPException : Type :=
| Http (status_code : Z) (detail : str).

(** The row id SQLite gives an inserted row whose integer primary key is
    left unset: 1 in an empty table, else one more than the largest. *)
Definition next_id (ids : list Z) : Z :=
  match ids with
  | [] => 1
  | i :: rest => 1 + fold_left Z.max rest i
  end.

(** [db.add(UserModel(email=..., name=...))] followed by [db.commit()]. *)
Definition add_user (db : Database) (e n : str) : Database * UserModel :=
  let user := {| id := next_id (id <$> users db);
                 email := Some e; name := Some n |} in
  ({| users := users db ++ [user]; messages := messages db |}, user).

(** [db.add(MessageModel(content=..., user_id=...))] followed by
    [db.commit()]. *)
Definition add_message (db : Database) (c : str) (uid : Z) : Database :=
  let message := {| message_id := next_id (message_id <$> messages db);
                    message_content := Some c; user_id := Some uid |} in
  {| users := users db; messages := messages db ++ [message] |}.

(** [add_sample_data] (lines 94-113). *)
Definition add_sample_data (db : Database) : Database :=
  if Z.of_nat (length (users db)) >? 0 then db
  else
    let '(db, user1) := add_user db (py "john@example.com") (py "John Doe") in
    let '(db, user2) := add_user db (py "jane@example.com") (py "Jane Smith") in
    let db := add_message db (py "Hello, this is my first message") (id user1) in
    let db := add_message db (py "Another message from me") (id user1) in
    add_message db (py "Hi there, I'm Jane") (id user2).

(** The start-up half of [lifespan] (lines 119-124). *)
Definition lifespan_startup (db : Database) : Database := add_sample_data db.

(** [db.query(UserModel).filter(UserModel.email == email).first()] *)
Definition first_user_by_email (db : Database) (e : str) : option UserModel :=
  List.find (λ u, bool_decide (email u = Some e)) (users db).

Definition not_found (e : str) : HTTPException :=
  Http 404 (py "User with email " ++ e ++ py " not found").

(** [root] *)
Definition root : pyval := PDict [(py "message", PStr (py "User Messages API"))].

(** [get_user_messages] (lines 146-155): the rows the function returns. *)
Definition get_user_messages (db : Database) (e : str)
    : HTTPException + list MessageModel :=
  match first_user_by_email db e with
  | None => inl (not_found e)
  | Some user =>
      inr (List.filter (λ m, bool_decide (user_id m = Some (id user)))
             (messages db))
  end.

(** [get_users] (lines 157-160). *)
Definition get_users (db : Database) : list UserModel := users db.

(** [get_user_with_messages] (lines 165-170): the row the function
    returns. *)
Definition get_user_with_messages (db : Database) (e : str)
    : HTTPException + UserModel :=
  match first_user_by_email db e with
  | None => inl (not_found e)
  | Some user => inr user
  end.

(** A freshly created database file. *)
Definition empty_db : Database := {| users := []; messages := [] |}.

End MessagesApi.

(** ** Worlds for the examples *)

Module Worlds.

Definition ok_response (body : pyval) : Response :=
  {| status_code := 200; text := []; json := inr body |}.

(** A server answering every request with the same response. *)
Definition server (r : Response) : World :=
  {| requests_post := λ _ _, inr r;
     hf_pipeline := λ _ _, inr tt;
     hf_apply_chat_template := λ _ _ _ _, inl (Foreign "NotUsed" []);
     hf_call := λ _ _ _ _ _ _ _, inl (Foreign "NotUsed" []) |}.

Definition thinking : pyval :=
  PDict [(py "message",
          PDict [(py "content", PStr (py "<think>reasoning</think>Hello!"))])].

(** A server that answers 500 with the body of scenario 8. *)
Definition not_found_world : World :=
  server
    {| status_code := 500; text := py "model not found";
       json := inl (Foreign "JSONDecodeError" []) |}.

(** A local runtime that runs out of memory on every call. *)
Definition failing_runtime : World :=
  {| requests_post := λ _ _, inl (Foreign "ConnectionError" []);
     hf_pipeline := λ _ _, inr tt;
     hf_apply_chat_template := λ _ messages _ _,
       inr (Models.apply_chat_template messages false true);
     hf_call := λ _ _ _ _ _ _ _, inl (Foreign "OutOfMemoryError" []) |}.

(** A local runtime that echoes the formatted prompt and answers "Hi!". *)
Definition echo_runtime : World :=
  {| requests_post := λ _ _, inl (Foreign "ConnectionError" []);
     hf_pipeline := λ _ _, inr tt;
     hf_apply_chat_template := λ _ messages _ _,
       inr (concat ((λ m, content m ++ py "</s>" ++ Models.nl) <$> messages)
              ++ Models.ASSISTANT_TAG ++ Models.nl);
     hf_call := λ _ prompt _ _ _ _ _,
       inr (PList [PDict [(py "generated_text", PStr (prompt ++ py "Hi!"))]]) |}.

End Worlds.

(** ** Vocabulary of the statements *)

(** [x] and [y] agree when one is a prefix of the other: a string that
    starts with [x] can start with [y] only then. *)
Definition agree (x y : str) : bool := startswith x y || startswith y x.

(** No occurrence of [sub] begins inside the literal [lit], whatever
    follows it. *)
Definition lit_free (lit sub : str) : bool :=
  forallb (λ p, negb (agree (drop p lit) sub)) (seq 0 (length lit)).

(** No occurrence of [sub] begins inside a text free of [tag] and runs over
    into a following text that starts with [lit]: at every cut [k] of
    [sub], either the part before the cut already holds [tag], or the part
    after it disagrees with [lit]. *)
Definition straddle_free (tag sub lit : str) : bool :=
  forallb (λ k, contains tag (take k sub) || negb (agree lit (drop k sub)))
    (seq 1 (length sub - 1)).

(** All characters of [w] are whitespace. *)
Definition blank (w : str) : bool := forallb isspace w.

(** *** The format-then-re-parse round trip *)

Definition system_message (s : str) : Message :=
  {| role := py "system"; content := s |}.
Definition user_message (u : str) : Message :=
  {| role := py "user"; content := u |}.
Definition assistant_message (a : str) : Message :=
  {| role := py "assistant"; content := a |}.

(** The role is one of the three the formatter knows. *)
Definition known_role (m : Message) : bool :=
  bool_decide (role m = py "system") || bool_decide (role m = py "user")
  || bool_decide (role m = py "assistant").

(** Serialize with [apply_chat_template], re-parse with the message
    extraction of [OllamaModel.__call__]. *)
Definition round_trip (conversation : list Message) (add_generation_prompt : bool)
    : result (list Message) :=
  Models.extract_messages
    (Models.apply_chat_template conversation false add_generation_prompt).

(** The re-parse gives the conversation back. *)
Definition reconstructs (conversation : list Message)
    (add_generation_prompt : bool) : Prop :=
  round_trip conversation add_generation_prompt = inr conversation.

(** No role tag occurs in the text. *)
Definition tag_free (c : str) : Prop :=
  contains Models.SYSTEM_TAG c = false ∧ contains Models.USER_TAG c = false
  ∧ contains Models.ASSISTANT_TAG c = false.

(** The message with its content stripped of surrounding whitespace. *)
Definition trimmed (m : Message) : Message :=
  {| role := role m; content := strip (content m) |}.

(** The conversations the re-parse is written for: one user message, a
    system message followed by a user message (what [generate_text] builds),
    or, when no generation prompt is appended, one system message. *)
Inductive reparsable : bool → list Message → Prop :=
| only_user (gen : bool) (u : str) : reparsable gen [user_message u]
| system_user (gen : bool) (s u : str) :
    reparsable gen [system_message s; user_message u]
| only_system (s : str) : reparsable false [system_message s].

(** What the formatter leaves after the last content. *)
Definition gen_tail (add_generation_prompt : bool) : str :=
  if add_generation_prompt then Models.nl ++ Models.ASSISTANT_TAG ++ Models.nl
  else Models.nl.

(** The request body [generate_text] has posted for a prompt. *)
Definition generation_payload (self : Models.OllamaModel) (prompt : str)
    (temperature : float) : gmap str field :=
  Models.build_payload self
    [system_message (strip Models.system_prompt); user_message (strip prompt)]
    temperature (Some 256) (Some 0.95%float) (Some 50).

(** No occurrence of [sep] overlaps another one. *)
Definition border_free (sep : str) : bool :=
  forallb (λ d, negb (agree (drop d sep) sep)) (seq 1 (length sep - 1)).

(** What one message adds to the formatted prompt. *)
Definition render (m : Message) : str := Models.append_message [] m.

(** The key does not occur in the dict. *)
Definition absent (key : str) (d : list (str * pyval)) : bool :=
  negb (existsb (λ kv, bool_decide (kv.1 = key)) d).

(** The tag occurs in the prompt, but never followed by a newline. *)
Definition dangling (tag prompt : str) : bool :=
  contains tag prompt && negb (contains (tag ++ Models.nl) prompt).

(** Side conditions on literals are settled by evaluation. *)
Ltac literal := done || by vm_compute.

(** ** The model on the spec's scenarios *)

Module Scenarios.
Import Models Worlds.

Example find_ex : find (py "a<think>b") (py "<think>") = 1.
Proof. reflexivity. Qed.
Example split_ex :
  split (py "a, b, c") (py ", ") = [py "a"; py "b"; py "c"].
Proof. reflexivity. Qed.
Example split_ex2 :
  split (py "ollama:qwen3:0.6b") (py "ollama:") = [py ""; py "qwen3:0.6b"].
Proof. reflexivity. Qed.
Example strip_ex : strip (py "  a b " ++ nl) = py "a b".
Proof. reflexivity. Qed.

(** Scenario 7 of the spec. *)
Example scenario_200 :
  outcome (generate_text (server (ok_response thinking))
             (Ollama (OllamaModel_init (py "qwen3:0.6b"))) (py "hi")
             0.7%float)
  = inr (PStr (py "Hello!")).
Proof. vm_compute. reflexivity. Qed.

Example format_ex :
  apply_chat_template
    [ {| role := py "system"; content := py "You are helpful" |};
      {| role := py "user"; content := py "hi" |} ] false true
  = py "<|system|>" ++ nl ++ py "You are helpful" ++ nl
      ++ py "<|user|>" ++ nl ++ py "hi" ++ nl ++ py "<|assistant|>" ++ nl.
Proof. vm_compute. reflexivity. Qed.

Example extract_ex :
  extract_messages
    (py "<|system|>" ++ nl ++ py "You are helpful" ++ nl
       ++ py "<|user|>" ++ nl ++ py "hi" ++ nl ++ py "<|assistant|>" ++ nl)
  = inr [ {| role := py "system"; content := py "You are helpful" |};
          {| role := py "user"; content := py "hi" |} ].
Proof. vm_compute. reflexivity. Qed.

Example validate_ex :
  UserApi.validate_password UserApi.ascii_isdigit UserApi.ascii_isupper
    (py "Password123") = inr (py "Password123").
Proof. vm_compute. reflexivity. Qed.

End Scenarios.

(** ** Facts about the string operations *)

Module StrFacts.

Local Open Scope nat_scope.

Lemma startswith_nil (s : str) : startswith s [] = true.
Proof. by destruct s. Qed.

(** [startswith] is the prefix test. *)
Lemma startswith_spec (s p : str) :
  startswith s p = true ↔ ∃ r, s = p ++ r.
Proof.
  revert s; induction p as [|c p IH]; intros s.
  - rewrite startswith_nil. split; [eauto | done].
  - destruct s as [|d s]; simpl.
    + split; [done | by intros [r ?]].
    + rewrite andb_true_iff, N.eqb_eq, IH. split.
      * intros [-> [r ->]]. by exists r.
      * intros [r [= -> ->]]. eauto.
Qed.

Lemma startswith_app (p r : str) : startswith (p ++ r) p = true.
Proof. apply startswith_spec. eauto. Qed.

Lemma find_nat_nil (sub : str) :
  find_nat [] sub = if startswith [] sub then Some 0 else None.
Proof. done. Qed.

Lemma find_nat_cons (c : char) (s sub : str) :
  find_nat (c :: s) sub
  = if startswith (c :: s) sub then Some 0 else S <$> find_nat s sub.
Proof. done. Qed.

(** What [find_nat] returns: the first position where [sub] begins. *)
Lemma find_nat_Some (s sub : str) (i : nat) :
  find_nat s sub = Some i →
  startswith (drop i s) sub = true ∧ i ≤ length s
  ∧ ∀ j, j < i → startswith (drop j s) sub = false.
Proof.
  revert i; induction s as [|c s IH]; intros i.
  - rewrite find_nat_nil. destruct (startswith [] sub) eqn:E; [|done].
    intros [= <-]. split; [done|]. split; [lia|]. intros j Hj; lia.
  - rewrite find_nat_cons. destruct (startswith (c :: s) sub) eqn:E.
    + intros [= <-]. split; [done|]. split; [lia|]. intros j Hj; lia.
    + destruct (find_nat s sub) as [i'|] eqn:F; [|done].
      intros [= <-]. destruct (IH i' eq_refl) as (H1 & H2 & H3).
      split; [done|]. split; [simpl; lia|].
      intros [|j] Hj; [done | apply H3; lia].
Qed.

Lemma find_nat_None (s sub : str) :
  find_nat s sub = None → ∀ j, startswith (drop j s) sub = false.
Proof.
  induction s as [|c s IH].
  - rewrite find_nat_nil. destruct (startswith [] sub) eqn:E; [done|].
    by intros _ [|j].
  - rewrite find_nat_cons. destruct (startswith (c :: s) sub) eqn:E; [done|].
    destruct (find_nat s sub) eqn:F; [done|].
    intros _ [|j]; [done | by apply IH].
Qed.

Lemma find_nat_is_Some (s sub : str) (p : nat) :
  startswith (drop p s) sub = true → is_Some (find_nat s sub).
Proof.
  intros H. destruct (find_nat s sub) eqn:F; [eauto|].
  by rewrite (find_nat_None _ _ F p) in H.
Qed.

Lemma find_nat_here (s sub : str) :
  startswith s sub = true → find_nat s sub = Some 0.
Proof.
  intros H. destruct s; [rewrite find_nat_nil|rewrite find_nat_cons];
    by rewrite H.
Qed.

(** [find] and [in] through [find_nat]. *)
Lemma find_Some (s sub : str) (i : nat) :
  find_nat s sub = Some i → find s sub = Z.of_nat i.
Proof. unfold find. by intros ->. Qed.

Lemma contains_true (sub s : str) :
  contains sub s = true ↔ is_Some (find_nat s sub).
Proof.
  unfold contains, find. rewrite bool_decide_eq_true.
  destruct (find_nat s sub); split; try done; try lia; eauto;
    try (by intros [? ?]).
Qed.

Lemma contains_false (sub s : str) :
  contains sub s = false ↔ find_nat s sub = None.
Proof.
  unfold contains, find. rewrite bool_decide_eq_false.
  destruct (find_nat s sub); split; try done; try lia;
    try (intros H; exfalso; apply H; lia).
Qed.

(** [sub in s] says that [sub] is an infix of [s]. *)
Lemma contains_spec (sub s : str) :
  contains sub s = true ↔ ∃ l r, s = l ++ sub ++ r.
Proof.
  rewrite contains_true. split.
  - intros [i Hi]. apply find_nat_Some in Hi as (H & _ & _).
    apply startswith_spec in H as [r Hr].
    exists (take i s), r. by rewrite <- Hr, take_drop.
  - intros (l & r & ->). apply (find_nat_is_Some _ _ (length l)).
    rewrite drop_app_length. apply startswith_app.
Qed.

Lemma contains_app (sub l x r : str) :
  contains sub x = true → contains sub (l ++ x ++ r) = true.
Proof.
  rewrite !contains_spec. intros (l' & r' & ->).
  exists (l ++ l'), (r' ++ r). by rewrite <- !app_assoc.
Qed.

Lemma not_contains_app (sub l x r : str) :
  contains sub (l ++ x ++ r) = false → contains sub x = false.
Proof.
  intros H. destruct (contains sub x) eqn:E; [|done].
  by rewrite (contains_app _ l _ r E) in H.
Qed.

(** If no occurrence begins inside [a], the search moves past it. *)
Lemma find_nat_skip (a b sub : str) :
  (∀ p, p < length a → startswith (drop p (a ++ b)) sub = false) →
  find_nat (a ++ b) sub = (λ i, length a + i) <$> find_nat b sub.
Proof.
  induction a as [|c a IH]; intros H.
  - simpl. by destruct (find_nat b sub).
  - assert (H0 : startswith (c :: a ++ b) sub = false)
      by (apply (H 0); simpl; lia).
    cbn [app]. rewrite find_nat_cons, H0.
    rewrite IH.
    + destruct (find_nat b sub); simpl; [f_equal|done].
    + intros p Hp. apply (H (S p)). simpl. lia.
Qed.

(** A string starting with [x] starts with [y] only if they agree. *)
Lemma startswith_agree (x r y : str) :
  startswith (x ++ r) y = true → agree x y = true.
Proof.
  unfold agree. revert y; induction x as [|c x IH]; intros y H.
  - by rewrite (startswith_nil y), orb_true_r.
  - destruct y as [|d y]; [done|]. simpl in *.
    apply andb_true_iff in H as [Hc H]. apply N.eqb_eq in Hc as ->.
    rewrite N.eqb_refl. simpl. by apply IH.
Qed.

(** How a prefix test on [x ++ b] splits. *)
Lemma startswith_app_cases (x b sub : str) :
  startswith (x ++ b) sub = true →
  startswith x sub = true
  ∨ (length x < length sub ∧ x = take (length x) sub
     ∧ startswith b (drop (length x) sub) = true).
Proof.
  revert sub; induction x as [|c x IH]; intros sub H.
  - destruct sub as [|d sub]; [by left|]. right. simpl. split; [lia|done].
  - destruct sub as [|d sub]; [by left|]. simpl in *.
    apply andb_true_iff in H as [Hc H]. rewrite Hc. simpl.
    apply N.eqb_eq in Hc as ->.
    destruct (IH _ H) as [?|(? & ? & ?)]; [by left|right].
    split; [lia|]. split; [by f_equal|done].
Qed.

Lemma lit_free_skip (lit rest sub : str) :
  lit_free lit sub = true →
  find_nat (lit ++ rest) sub = (λ i, length lit + i) <$> find_nat rest sub.
Proof.
  intros H. apply find_nat_skip. intros p Hp.
  destruct (startswith _ sub) eqn:E; [|done].
  rewrite drop_app_le in E by lia. apply startswith_agree in E.
  unfold lit_free in H. rewrite forallb_forall in H.
  specialize (H p). rewrite E in H. discriminate H.
  apply in_seq. lia.
Qed.

Lemma straddle_free_skip (tag sub lit s rest : str) :
  contains tag s = false →
  contains tag sub = true →
  straddle_free tag sub lit = true →
  find_nat (s ++ lit ++ rest) sub
  = (λ i, length s + i) <$> find_nat (lit ++ rest) sub.
Proof.
  intros Hs Hsub H. apply find_nat_skip. intros p Hp.
  destruct (startswith _ sub) eqn:E; [|done]. exfalso.
  rewrite drop_app_le in E by lia.
  assert (Hin : ∀ x, contains tag x = true →
                     ∀ r, drop p s = x ++ r → False).
  { intros x Hx r Hr. rewrite <- (take_drop p s), Hr in Hs.
    by rewrite (contains_app tag (take p s) x r Hx) in Hs. }
  apply startswith_app_cases in E as [E|(Hlt & Hx & E)].
  - apply startswith_spec in E as [r Hr].
    by apply (Hin sub Hsub r).
  - apply startswith_agree in E.
    unfold straddle_free in H. rewrite forallb_forall in H.
    specialize (H (length (drop p s))). rewrite E in H.
    rewrite orb_false_r in H.
    apply (Hin (take (length (drop p s)) sub)) with (r := []).
    + apply H, in_seq. rewrite length_drop in Hlt |- *. lia.
    + by rewrite app_nil_r.
Qed.

(** *** [split]: the bound on the cuts is never reached *)

Lemma split_fuel_enough (sep : str) (n m : nat) (s : str) :
  sep ≠ [] → length s ≤ n → length s ≤ m →
  split_fuel n s sep = split_fuel m s sep.
Proof.
  intros Hsep. revert m s; induction n as [|n IH]; intros m s Hn Hm.
  - destruct s; [|simpl in Hn; lia].
    destruct m; [done|]. simpl. by destruct sep.
  - destruct m as [|m].
    + destruct s; [|simpl in Hm; lia]. simpl. by destruct sep.
    + simpl. destruct (find_nat s sep) as [i|] eqn:F; [|done].
      f_equal. assert (0 < length sep) by (destruct sep; [done|simpl; lia]).
      apply IH; rewrite length_drop; lia.
Qed.

(** The equation [split] satisfies on a non-empty separator. *)
Lemma split_unfold (s sep : str) :
  sep ≠ [] →
  split s sep
  = match find_nat s sep with
    | None => [s]
    | Some i => take i s :: split (drop (i + length sep) s) sep
    end.
Proof.
  intros Hsep. unfold split at 1.
  destruct (length s) as [|n] eqn:L.
  - destruct s; [|done]. simpl. by destruct sep.
  - simpl. destruct (find_nat s sep) as [i|] eqn:F; [|done].
    f_equal. unfold split.
    assert (0 < length sep) by (destruct sep; [done|simpl; lia]).
    apply split_fuel_enough; [done| |done]. rewrite length_drop. lia.
Qed.

Lemma split_none (s sep : str) :
  sep ≠ [] → find_nat s sep = None → split s sep = [s].
Proof. intros Hsep F. by rewrite split_unfold, F. Qed.

(** [s.split(sep)[0]] *)
Lemma index_split_0 (s sep : str) :
  sep ≠ [] →
  index (split s sep) 0
  = inr (match find_nat s sep with Some i => take i s | None => s end).
Proof.
  intros Hsep. rewrite split_unfold by done.
  by destruct (find_nat s sep).
Qed.

(** [s.split(sep)[1]] once the first cut is known. *)
Lemma index_split_1 (s sep : str) (i : nat) :
  sep ≠ [] → find_nat s sep = Some i →
  index (split s sep) 1 = index (split (drop (i + length sep) s) sep) 0.
Proof. intros Hsep F. by rewrite split_unfold, F. Qed.

(** *** Slices at a found position *)

Lemma slice_to_nat (s : str) (i : nat) : slice_to s (Z.of_nat i) = take i s.
Proof.
  unfold slice_to, slice_index, len.
  destruct (Z.ltb_spec (Z.of_nat i) 0); [lia|].
  destruct (decide (i ≤ length s)).
  - f_equal. lia.
  - rewrite !take_ge; [done|lia|lia].
Qed.

Lemma slice_from_nat (s : str) (i : nat) : slice_from s (Z.of_nat i) = drop i s.
Proof.
  unfold slice_from, slice_index, len.
  destruct (Z.ltb_spec (Z.of_nat i) 0); [lia|].
  destruct (decide (i ≤ length s)).
  - f_equal. lia.
  - rewrite !drop_ge; [done|lia|lia].
Qed.

(** *** [strip] *)

Lemma lstrip_blank (w : str) : blank w = true → lstrip w = [].
Proof.
  induction w as [|c w IH]; [done|]. simpl.
  intros [-> ?]%andb_true_iff. auto.
Qed.

Lemma lstrip_app_blank (w x : str) : blank w = true → lstrip (w ++ x) = lstrip x.
Proof.
  induction w as [|c w IH]; [done|]. simpl.
  intros [-> ?]%andb_true_iff. auto.
Qed.

Lemma lstrip_app_keep (x y : str) :
  blank x = false → lstrip (x ++ y) = lstrip x ++ y.
Proof.
  induction x as [|c x IH]; [done|]. simpl.
  destruct (isspace c); simpl; [auto|done].
Qed.

(** A non-blank character stops [lstrip]. *)
Lemma lstrip_app_char (x : str) (h : char) (y : str) :
  isspace h = false → lstrip (x ++ h :: y) = lstrip x ++ h :: y.
Proof.
  intros Hh. induction x as [|c x IH]; simpl; [by rewrite Hh|].
  by destruct (isspace c).
Qed.

Lemma blank_rev (w : str) : blank (rev w) = blank w.
Proof.
  unfold blank. induction w as [|c w IH]; [done|]. simpl.
  rewrite forallb_app, IH. simpl. rewrite andb_true_r. apply andb_comm.
Qed.

Lemma rstrip_app_blank (x w : str) : blank w = true → rstrip (x ++ w) = rstrip x.
Proof.
  intros Hw. unfold rstrip. rewrite rev_app_distr, lstrip_app_blank; [done|].
  by rewrite blank_rev.
Qed.

Lemma rstrip_app_char (x : str) (e : char) (y : str) :
  isspace e = false → rstrip (x ++ e :: y) = x ++ e :: rstrip y.
Proof.
  intros He. unfold rstrip.
  rewrite rev_app_distr. simpl. rewrite <- app_assoc. simpl.
  rewrite lstrip_app_char by done.
  rewrite rev_app_distr. simpl. by rewrite rev_involutive, <- app_assoc.
Qed.

(** Trailing whitespace does not survive [strip]. *)
Lemma strip_app_blank (u w : str) : blank w = true → strip (u ++ w) = strip u.
Proof.
  intros Hw. unfold strip. destruct (blank u) eqn:Hu.
  - by rewrite lstrip_app_blank, (lstrip_blank w), (lstrip_blank u).
  - by rewrite lstrip_app_keep, rstrip_app_blank.
Qed.


End StrFacts.

(** ** The reasoning-trace stripping step *)

Module ThinkFacts.
Import Models StrFacts.

Lemma len_THINK_START : length THINK_START = 7%nat.
Proof. done. Qed.

Lemma len_THINK_END : length THINK_END = 8%nat.
Proof. done. Qed.

(** With both markers found, the cut is made at their first occurrences. *)
Lemma strip_think_found (t : str) (i j : nat) :
  find_nat t THINK_START = Some i → find_nat t THINK_END = Some j →
  strip_think t = take i t ++ strip (drop (j + 8) t).
Proof.
  intros Hi Hj. unfold strip_think.
  assert (contains THINK_START t = true) as -> by (apply contains_true; eauto).
  assert (contains THINK_END t = true) as -> by (apply contains_true; eauto).
  cbn [andb]. rewrite (find_Some _ _ _ Hi), (find_Some _ _ _ Hj).
  replace (Z.of_nat j + len THINK_END) with (Z.of_nat (j + 8))
    by (unfold len; rewrite len_THINK_END; lia).
  by rewrite slice_to_nat, slice_from_nat.
Qed.

Lemma strip_think_absent (t : str) :
  contains THINK_START t = false ∨ contains THINK_END t = false →
  strip_think t = t.
Proof.
  unfold strip_think. intros [-> | ->]; [done|].
  by rewrite andb_false_r.
Qed.

(** An end marker cannot begin inside a start marker. *)
Lemma start_end_apart (t : str) (i j : nat) :
  startswith (drop i t) THINK_START = true →
  startswith (drop j t) THINK_END = true →
  (i < j)%nat → (i + 7 ≤ j)%nat.
Proof.
  intros [r Hr]%startswith_spec Hj Hij.
  destruct (decide (i + 7 ≤ j)%nat) as [|Hn]; [done|exfalso].
  replace j with (i + (j - i))%nat in Hj by lia.
  rewrite <- drop_drop, Hr, drop_app_le in Hj
    by (rewrite len_THINK_START; lia).
  apply startswith_agree in Hj.
  assert (H : lit_free THINK_START THINK_END = true) by (by vm_compute).
  unfold lit_free in H. rewrite forallb_forall in H.
  specialize (H (j - i)%nat). rewrite Hj in H. discriminate H.
  apply in_seq. rewrite len_THINK_START. lia.
Qed.

(** C3: if only one of the two markers occurs in the generated text, the
    stripping step returns the text unchanged. *)
Theorem strip_think_unmatched (t : str) :
  (contains THINK_START t = true ∧ contains THINK_END t = false)
  ∨ (contains THINK_START t = false ∧ contains THINK_END t = true) →
  strip_think t = t.
Proof.
  intros [[_ H] | [H _]]; apply strip_think_absent; auto.
Qed.

Lemma strip_think_unmatched_witness :
  strip_think (py "draft <think>still thinking") = py "draft <think>still thinking"
  ∧ strip_think (py "done</think> answer") = py "done</think> answer".
Proof.
  split.
  - apply (strip_think_unmatched (py "draft <think>still thinking")).
    left. split; reflexivity.
  - apply (strip_think_unmatched (py "done</think> answer")).
    right. split; reflexivity.
Defined.

(** C2: when both markers occur and the start marker is found before the
    end marker, the text is [before ++ "<think>" ++ inside ++ "</think>" ++
    after], cut at the two positions [find] returns, and the stripping step
    returns [before] followed by the whitespace-trimmed [after]. *)
Theorem strip_think_removes_span (t : str) :
  contains THINK_START t = true → contains THINK_END t = true →
  find t THINK_START < find t THINK_END →
  ∃ before inside after : str,
    t = before ++ THINK_START ++ inside ++ THINK_END ++ after
    ∧ len before = find t THINK_START
    ∧ len (before ++ THINK_START ++ inside) = find t THINK_END
    ∧ strip_think t = before ++ strip after.
Proof.
  intros [i Hi]%contains_true [j Hj]%contains_true.
  rewrite (find_Some _ _ _ Hi), (find_Some _ _ _ Hj). intros Hij.
  destruct (find_nat_Some _ _ _ Hi) as (Si & Li & _).
  destruct (find_nat_Some _ _ _ Hj) as (Sj & Lj & _).
  assert (Hgap : (i + 7 ≤ j)%nat) by (apply (start_end_apart t); [done|done|lia]).
  apply startswith_spec in Si as [r Hr]. apply startswith_spec in Sj as [r' Hr'].
  assert (Hd : drop (j - i - 7) r = THINK_END ++ r').
  { rewrite <- Hr'. replace j with ((i + 7) + (j - i - 7))%nat at 2 by lia.
    rewrite <- drop_drop, <- (drop_drop t), Hr.
    by rewrite drop_app_length' by done. }
  assert (Hlen : (j - i - 7 < length r)%nat).
  { destruct (decide (j - i - 7 < length r)%nat); [done|].
    rewrite drop_ge in Hd by lia. discriminate Hd. }
  exists (take i t), (take (j - i - 7) r), r'.
  split; [|split; [|split]].
  - rewrite <- Hd, take_drop, <- Hr. by rewrite take_drop.
  - unfold len. rewrite length_take. lia.
  - unfold len. rewrite !length_app, !length_take, len_THINK_START. lia.
  - rewrite (strip_think_found t i j Hi Hj). do 2 f_equal.
    rewrite <- drop_drop, Hr'. by rewrite drop_app_length' by done.
Qed.

Lemma strip_think_removes_span_witness :
  ∃ before inside after : str,
    py "A <think>reasoning</think>  Hello! " =
      before ++ THINK_START ++ inside ++ THINK_END ++ after
    ∧ len before = find (py "A <think>reasoning</think>  Hello! ") THINK_START
    ∧ len (before ++ THINK_START ++ inside)
      = find (py "A <think>reasoning</think>  Hello! ") THINK_END
    ∧ strip_think (py "A <think>reasoning</think>  Hello! ")
      = before ++ strip after.
Proof.
  apply (strip_think_removes_span (py "A <think>reasoning</think>  Hello! "));
    reflexivity.
Defined.

Example strip_think_span_value :
  strip_think (py "A <think>reasoning</think>  Hello! ") = py "A Hello!".
Proof. reflexivity. Qed.





Example strip_think_two_pairs_value :
  strip_think (py "A<think>one</think> B<think>two</think>C ")
  = py "AB<think>two</think>C".
Proof. reflexivity. Qed.

End ThinkFacts.

(** ** The remote dispatch *)

Module RemoteFacts.
Import Models Worlds StrFacts.

(** The call posts once when the prompt re-parses, and not at all when the
    re-parse raises. *)
Lemma call_parsed (w : World) (self : OllamaModel) (prompt : str)
    (temperature : float) (max_new_tokens : option Z) (do_sample : bool)
    (top_k : option Z) (top_p : option float) (messages : list Message) :
  extract_messages prompt = inr messages →
  OllamaModel_call w self prompt temperature max_new_tokens do_sample top_k top_p
  = ([EvHttpPost (base_url self ++ py "/api/chat")
        (build_payload self messages temperature max_new_tokens top_p top_k)],
     response ←
       requests_post w (base_url self ++ py "/api/chat")
         (build_payload self messages temperature max_new_tokens top_p top_k);
     handle_response response).
Proof.
  intros H. unfold OllamaModel_call. rewrite H.
  unfold lift, post, mbind, M_bind, result_bind. simpl.
  by destruct (requests_post w _ _).
Qed.

Lemma call_unparsed (w : World) (self : OllamaModel) (prompt : str)
    (temperature : float) (max_new_tokens : option Z) (do_sample : bool)
    (top_k : option Z) (top_p : option float) (e : exn) :
  extract_messages prompt = inl e →
  OllamaModel_call w self prompt temperature max_new_tokens do_sample top_k top_p
  = ([], inl e).
Proof. intros H. unfold OllamaModel_call. by rewrite H. Qed.

(** The re-parse never yields an empty list: line 82 fills it. *)
Lemma extract_messages_nonempty (prompt : str) (messages : list Message) :
  extract_messages prompt = inr messages → messages ≠ [].
Proof.
  unfold extract_messages, mbind, result_bind, mret, result_ret.
  intros H.
  repeat (match type of H with
          | context [match ?x with _ => _ end] => destruct x eqn:?
          end; simplify_eq; try done).
  match goal with |- match ?l with _ => _ end ≠ _ => by destruct l end.
Qed.

(** Without either tag nothing is extracted, and the whole prompt becomes
    the one user message. *)
Lemma extract_messages_untagged (prompt : str) :
  contains SYSTEM_TAG prompt = false → contains USER_TAG prompt = false →
  extract_messages prompt = inr [{| role := py "user"; content := prompt |}].
Proof. unfold extract_messages. by intros -> ->. Qed.

(** The keys of the request body. *)
Lemma build_payload_lookup (self : OllamaModel) (messages : list Message)
    (temperature : float) (max_new_tokens : option Z)
    (top_p : option float) (top_k : option Z) :
  let body := build_payload self messages temperature max_new_tokens top_p top_k in
  body !! py "model" = Some (FStr (model_name self))
  ∧ body !! py "messages" = Some (FMessages messages)
  ∧ body !! py "temperature" = Some (FFloat temperature)
  ∧ body !! py "stream" = Some (FBool false)
  ∧ body !! py "max_tokens" = FInt <$> max_new_tokens
  ∧ body !! py "top_p" = FFloat <$> top_p
  ∧ body !! py "top_k" = FInt <$> top_k.
Proof.
  destruct max_new_tokens, top_p, top_k; vm_compute; repeat split.
Qed.

(** C5: when the remote backend answers the request with a status other
    than 200, the call raises the exception whose message is
    "Ollama API error: " followed by the raw response body, so the body is
    part of the message; the request was posted once and never again. *)
Theorem non_200_raises_with_body (w : World) (self : OllamaModel)
    (prompt : str) (temperature : float) (max_new_tokens : option Z)
    (do_sample : bool) (top_k : option Z) (top_p : option float)
    (messages : list Message) (response : Response) :
  extract_messages prompt = inr messages →
  requests_post w (base_url self ++ py "/api/chat")
    (build_payload self messages temperature max_new_tokens top_p top_k)
  = inr response →
  status_code response ≠ 200 →
  outcome (OllamaModel_call w self prompt temperature max_new_tokens do_sample
             top_k top_p)
  = inl (Exception (py "Ollama API error: " ++ text response))
  ∧ contains (text response) (py "Ollama API error: " ++ text response) = true
  ∧ trace (OllamaModel_call w self prompt temperature max_new_tokens do_sample
             top_k top_p)
    = [EvHttpPost (base_url self ++ py "/api/chat")
         (build_payload self messages temperature max_new_tokens top_p top_k)].
Proof.
  intros Hm Hr Hs. rewrite (call_parsed _ _ _ _ _ _ _ _ _ Hm), Hr.
  split; [|split; [|done]].
  - unfold outcome, handle_response. simpl.
    by destruct (Z.eqb_spec (status_code response) 200).
  - apply contains_spec. exists (py "Ollama API error: "), [].
    by rewrite app_nil_r.
Qed.

Lemma non_200_raises_with_body_witness :
  outcome (OllamaModel_call not_found_world (OllamaModel_init (py "qwen3:0.6b"))
             (py "hi") 0.7%float None true None None)
  = inl (Exception (py "Ollama API error: " ++ py "model not found"))
  ∧ contains (py "model not found")
      (py "Ollama API error: " ++ py "model not found") = true
  ∧ trace (OllamaModel_call not_found_world (OllamaModel_init (py "qwen3:0.6b"))
             (py "hi") 0.7%float None true None None)
    = [EvHttpPost (py "http://localhost:11434" ++ py "/api/chat")
         (build_payload (OllamaModel_init (py "qwen3:0.6b"))
            [{| role := py "user"; content := py "hi" |}] 0.7%float None None
            None)].
Proof.
  apply (non_200_raises_with_body not_found_world
           (OllamaModel_init (py "qwen3:0.6b")) (py "hi") 0.7%float None true
           None None [{| role := py "user"; content := py "hi" |}]
           {| status_code := 500; text := py "model not found";
              json := inl (Foreign "JSONDecodeError" []) |}).
  - reflexivity.
  - reflexivity.
  - simpl. lia.
Defined.

(** C6: in every request the call posts, "model", "messages",
    "temperature" and "stream": false are present, and each of
    "max_tokens", "top_p", "top_k" is present with the caller's value when
    the caller gave one and is no key of the body when the caller left it
    [None]. *)
Theorem request_body_keys (w : World) (self : OllamaModel)
    (prompt : str) (temperature : float) (max_new_tokens : option Z)
    (do_sample : bool) (top_k : option Z) (top_p : option float)
    (url : str) (body : gmap str field) :
  EvHttpPost url body
    ∈ trace (OllamaModel_call w self prompt temperature max_new_tokens
               do_sample top_k top_p) →
  body !! py "model" = Some (FStr (model_name self))
  ∧ (∃ messages, body !! py "messages" = Some (FMessages messages))
  ∧ body !! py "temperature" = Some (FFloat temperature)
  ∧ body !! py "stream" = Some (FBool false)
  ∧ body !! py "max_tokens" = FInt <$> max_new_tokens
  ∧ body !! py "top_p" = FFloat <$> top_p
  ∧ body !! py "top_k" = FInt <$> top_k.
Proof.
  destruct (extract_messages prompt) as [e|messages] eqn:Hm.
  - rewrite (call_unparsed _ _ _ _ _ _ _ _ _ Hm). by intros ?%elem_of_nil.
  - rewrite (call_parsed _ _ _ _ _ _ _ _ _ Hm). unfold trace. simpl.
    intros [= -> ->]%list_elem_of_singleton.
    destruct (build_payload_lookup self messages temperature max_new_tokens
                top_p top_k) as (? & ? & ? & ? & ? & ? & ?).
    repeat split; eauto.
Qed.

Lemma request_body_keys_witness :
  let body :=
    build_payload (OllamaModel_init (py "qwen3:0.6b"))
      [{| role := py "user"; content := py "hi" |}] 0.7%float (Some 256) None
      None in
  body !! py "model" = Some (FStr (py "qwen3:0.6b"))
  ∧ (∃ messages, body !! py "messages" = Some (FMessages messages))
  ∧ body !! py "temperature" = Some (FFloat 0.7%float)
  ∧ body !! py "stream" = Some (FBool false)
  ∧ body !! py "max_tokens" = Some (FInt 256)
  ∧ body !! py "top_p" = None
  ∧ body !! py "top_k" = None.
Proof.
  apply (request_body_keys not_found_world (OllamaModel_init (py "qwen3:0.6b"))
           (py "hi") 0.7%float (Some 256) true None None
           (py "http://localhost:11434" ++ py "/api/chat")).
  vm_compute. apply list_elem_of_here.
Defined.

(** C9: a prompt holding neither "<|system|>" nor "<|user|>" is posted as
    one user message whose content is the whole prompt, and no request the
    call posts carries an empty message list. *)
Theorem untagged_prompt_is_one_user_message (w : World) (self : OllamaModel)
    (prompt : str) (temperature : float) (max_new_tokens : option Z)
    (do_sample : bool) (top_k : option Z) (top_p : option float) :
  (contains SYSTEM_TAG prompt = false → contains USER_TAG prompt = false →
   trace (OllamaModel_call w self prompt temperature max_new_tokens do_sample
            top_k top_p)
   = [EvHttpPost (base_url self ++ py "/api/chat")
        (build_payload self [{| role := py "user"; content := prompt |}]
           temperature max_new_tokens top_p top_k)])
  ∧ (∀ url body,
       EvHttpPost url body
         ∈ trace (OllamaModel_call w self prompt temperature max_new_tokens
                    do_sample top_k top_p) →
       ∃ messages,
         body !! py "messages" = Some (FMessages messages) ∧ messages ≠ []).
Proof.
  split.
  - intros Hs Hu.
    by rewrite (call_parsed _ _ _ _ _ _ _ _ _
                  (extract_messages_untagged _ Hs Hu)).
  - intros url body.
    destruct (extract_messages prompt) as [e|messages] eqn:Hm.
    + rewrite (call_unparsed _ _ _ _ _ _ _ _ _ Hm). by intros ?%elem_of_nil.
    + rewrite (call_parsed _ _ _ _ _ _ _ _ _ Hm). unfold trace. simpl.
      intros [= -> ->]%list_elem_of_singleton. exists messages. split.
      * apply build_payload_lookup.
      * by apply (extract_messages_nonempty prompt).
Qed.

Lemma untagged_prompt_is_one_user_message_witness :
  trace (OllamaModel_call not_found_world (OllamaModel_init (py "qwen3:0.6b"))
           (py "tell me a joke") 0.7%float None true None None)
  = [EvHttpPost (py "http://localhost:11434" ++ py "/api/chat")
       (build_payload (OllamaModel_init (py "qwen3:0.6b"))
          [{| role := py "user"; content := py "tell me a joke" |}] 0.7%float
          None None None)].
Proof.
  apply (proj1 (untagged_prompt_is_one_user_message not_found_world
                  (OllamaModel_init (py "qwen3:0.6b")) (py "tell me a joke")
                  0.7%float None true None None)); reflexivity.
Defined.

End RemoteFacts.

(** ** Backend selection and the local dispatch *)

Module DispatchFacts.
Import Models Worlds StrFacts.

(** X1: an identifier that does not start with "ollama:" builds the local
    pipeline on the whole identifier; the only external call is that
    construction, so nothing is posted. *)
Theorem load_text_model_local (w : World) (model_name : str) :
  startswith model_name OLLAMA_PREFIX = false →
  load_text_model w model_name
  = ([EvPipelineNew (py "text-generation") model_name],
     (λ _, HFPipeline model_name) <$> hf_pipeline w (py "text-generation") model_name).
Proof.
  intros H. unfold load_text_model, pipeline. rewrite H.
  unfold mbind, M_bind, result_bind, mret, M_ret, result_ret, fmap, result_fmap.
  by destruct (hf_pipeline w _ _).
Qed.

(** X2: an identifier "ollama:" ++ rest whose remainder does not hold
    "ollama:" again selects the remote backend with that remainder as the
    model name, and makes no external call. *)
Theorem load_text_model_remote (w : World) (rest : str) :
  contains OLLAMA_PREFIX rest = false →
  load_text_model w (OLLAMA_PREFIX ++ rest)
  = ([], inr (Ollama (OllamaModel_init rest))).
Proof.
  intros H. unfold load_text_model. rewrite startswith_app.
  rewrite (index_split_1 _ _ 0) by (done || apply find_nat_here, startswith_app).
  rewrite index_split_0 by done.
  change (drop (0 + length OLLAMA_PREFIX) (OLLAMA_PREFIX ++ rest))
    with (drop (length OLLAMA_PREFIX) (OLLAMA_PREFIX ++ rest)).
  rewrite drop_app_length.
  apply contains_false in H. by rewrite H.
Qed.

Lemma load_text_model_local_witness :
  load_text_model failing_runtime (py "TinyLlama/TinyLlama-1.1B-Chat-v1.0")
  = ([EvPipelineNew (py "text-generation")
        (py "TinyLlama/TinyLlama-1.1B-Chat-v1.0")],
     (λ _, HFPipeline (py "TinyLlama/TinyLlama-1.1B-Chat-v1.0"))
       <$> hf_pipeline failing_runtime (py "text-generation")
             (py "TinyLlama/TinyLlama-1.1B-Chat-v1.0")).
Proof.
  apply (load_text_model_local failing_runtime
           (py "TinyLlama/TinyLlama-1.1B-Chat-v1.0")).
  reflexivity.
Defined.

Lemma load_text_model_remote_witness :
  load_text_model failing_runtime (OLLAMA_PREFIX ++ py "qwen3:0.6b")
  = ([], inr (Ollama (OllamaModel_init (py "qwen3:0.6b")))).
Proof.
  apply (load_text_model_remote failing_runtime (py "qwen3:0.6b")).
  reflexivity.
Defined.

(** C4 at an identifier whose model name holds "ollama:" again: the
    remote model name is cut at the second occurrence instead of being the
    remainder "my-ollama:latest". *)
Theorem load_text_model_cuts_name (w : World) :
  load_text_model w (py "ollama:my-ollama:latest")
  = ([], inr (Ollama {| model_name := py "my-";
                        base_url := py "http://localhost:11434" |})).
Proof. reflexivity. Qed.

(** C7: when the local inference call raises, [generate_text] ends with
    that same error, after exactly one inference call and no other
    external call. *)
Theorem local_error_surfaces (w : World) (model prompt : str)
    (temperature : float) (formatted_prompt : str) (e : exn) :
  hf_apply_chat_template w model
    [ {| role := py "system"; content := system_prompt |};
      {| role := py "user"; content := prompt |} ] false true
  = inr formatted_prompt →
  hf_call w model formatted_prompt temperature (Some 256) true (Some 50)
    (Some 0.95%float) = inl e →
  generate_text w (HFPipeline model) prompt temperature
  = ([EvLocalInference model formatted_prompt], inl e).
Proof.
  intros Ht Hc. unfold generate_text, tokenizer_apply_chat_template, pipe_call.
  rewrite Ht. unfold lift, mbind, M_bind. simpl. by rewrite Hc.
Qed.

Lemma local_error_surfaces_witness :
  generate_text failing_runtime (HFPipeline (py "TinyLlama")) (py "hi") 0.7%float
  = ([EvLocalInference (py "TinyLlama")
        (apply_chat_template
           [ {| role := py "system"; content := system_prompt |};
             {| role := py "user"; content := py "hi" |} ] false true)],
     inl (Foreign "OutOfMemoryError" [])).
Proof.
  apply (local_error_surfaces failing_runtime (py "TinyLlama") (py "hi")
           0.7%float); reflexivity.
Defined.

End DispatchFacts.

(** ** The password validator *)

Module UserFacts.
Import UserApi.

Section Validation.

Variables isdigit isupper : char → bool.

Lemma existsb_elem (f : char → bool) (s : str) :
  existsb f s = true ↔ ∃ c, c ∈ s ∧ f c = true.
Proof.
  rewrite existsb_exists. split; intros (c & H & ?); exists c; split;
    try done; by apply list_elem_of_In.
Qed.

Lemma existsb_none (f : char → bool) (s : str) :
  existsb f s = false ↔ ∀ c, c ∈ s → f c = false.
Proof.
  split.
  - intros H c Hc. destruct (f c) eqn:E; [|done].
    assert (existsb f s = true) by (apply existsb_elem; eauto). congruence.
  - intros H. destruct (existsb f s) eqn:E; [|done].
    apply existsb_elem in E as (c & Hc & E). by rewrite (H c Hc) in E.
Qed.

Lemma validate_short (value : str) :
  len value < 8 →
  validate_password isdigit isupper value
  = inl (ValueError (py "Password must be at least 8 characters long")).
Proof.
  intros H. unfold validate_password.
  by destruct (Z.ltb_spec (len value) 8); [|lia].
Qed.

Lemma validate_no_digit (value : str) :
  8 ≤ len value → existsb isdigit value = false →
  validate_password isdigit isupper value
  = inl (ValueError (py "Password must contain at least one digit")).
Proof.
  intros H Hd. unfold validate_password.
  destruct (Z.ltb_spec (len value) 8); [lia|]. by rewrite Hd.
Qed.

Lemma validate_no_upper (value : str) :
  8 ≤ len value → existsb isdigit value = true →
  existsb isupper value = false →
  validate_password isdigit isupper value
  = inl (ValueError (py "Password must contain at least one uppercase letter")).
Proof.
  intros H Hd Hu. unfold validate_password.
  destruct (Z.ltb_spec (len value) 8); [lia|]. by rewrite Hd, Hu.
Qed.

Lemma validate_ok (value : str) :
  8 ≤ len value → existsb isdigit value = true →
  existsb isupper value = true →
  validate_password isdigit isupper value = inr value.
Proof.
  intros H Hd Hu. unfold validate_password.
  destruct (Z.ltb_spec (len value) 8); [lia|]. by rewrite Hd, Hu.
Qed.

Lemma post_users_rejected (name value : str) (e : exn) :
  validate_password isdigit isupper value = inl e →
  post_users isdigit isupper name value = ([], inl e).
Proof. intros H. unfold post_users, UserCreate_validate. by rewrite H. Qed.

(** C8: the validator returns the password unchanged exactly when it has
    at least 8 characters, a digit and an uppercase letter; otherwise it
    raises the message of the first rule that fails (length, then digit,
    then uppercase), and the request ends with that error before the
    controller runs and without any external call. *)
Theorem validate_password_rules (value : str) :
  (∀ v, validate_password isdigit isupper value = inr v
        ↔ v = value ∧ 8 ≤ len value
          ∧ (∃ c, c ∈ value ∧ isdigit c = true)
          ∧ (∃ c, c ∈ value ∧ isupper c = true))
  ∧ (len value < 8 →
     validate_password isdigit isupper value
     = inl (ValueError (py "Password must be at least 8 characters long")))
  ∧ (8 ≤ len value → (∀ c, c ∈ value → isdigit c = false) →
     validate_password isdigit isupper value
     = inl (ValueError (py "Password must contain at least one digit")))
  ∧ (8 ≤ len value → (∃ c, c ∈ value ∧ isdigit c = true) →
     (∀ c, c ∈ value → isupper c = false) →
     validate_password isdigit isupper value
     = inl (ValueError
              (py "Password must contain at least one uppercase letter")))
  ∧ (∀ name e, validate_password isdigit isupper value = inl e →
               post_users isdigit isupper name value = ([], inl e)).
Proof.
  split; [|split; [|split; [|split]]].
  - intros v. split.
    + destruct (Z.ltb_spec (len value) 8) as [Hl|Hl];
        [by rewrite validate_short|].
      destruct (existsb isdigit value) eqn:Hd;
        [|by rewrite validate_no_digit].
      destruct (existsb isupper value) eqn:Hu;
        [|by rewrite validate_no_upper].
      rewrite validate_ok by done. intros [= <-].
      by rewrite <- !existsb_elem.
    + intros (-> & Hl & Hd & Hu). apply validate_ok; [done|..];
        by apply existsb_elem.
  - apply validate_short.
  - intros Hl Hd. apply validate_no_digit; [done|]. by apply existsb_none.
  - intros Hl Hd Hu. apply validate_no_upper; [done|..].
    + by apply existsb_elem.
    + by apply existsb_none.
  - intros name e. apply post_users_rejected.
Qed.

End Validation.

Lemma validate_password_rules_witness :
  validate_password ascii_isdigit ascii_isupper (py "Password123")
  = inr (py "Password123")
  ∧ validate_password ascii_isdigit ascii_isupper (py "Pw1")
    = inl (ValueError (py "Password must be at least 8 characters long"))
  ∧ validate_password ascii_isdigit ascii_isupper (py "Passwords")
    = inl (ValueError (py "Password must contain at least one digit"))
  ∧ validate_password ascii_isdigit ascii_isupper (py "password123")
    = inl (ValueError
             (py "Password must contain at least one uppercase letter"))
  ∧ post_users ascii_isdigit ascii_isupper (py "john") (py "password123")
    = ([], inl (ValueError
                  (py "Password must contain at least one uppercase letter"))).
Proof.
  split; [|split; [|split; [|split]]].
  - apply (proj1 (validate_password_rules ascii_isdigit ascii_isupper
                    (py "Password123"))).
    split; [reflexivity|]. split; [vm_compute; discriminate|].
    split; [exists 49%N | exists 80%N]; (split; [|reflexivity]);
      apply list_elem_of_In; vm_compute; tauto.
  - apply (proj1 (proj2 (validate_password_rules ascii_isdigit ascii_isupper
                           (py "Pw1")))).
    reflexivity.
  - apply (proj1 (proj2 (proj2 (validate_password_rules ascii_isdigit
                                  ascii_isupper (py "Passwords"))))).
    + vm_compute; discriminate.
    + intros c Hc%list_elem_of_In. vm_compute in Hc.
      repeat (destruct Hc as [<-|Hc]; [reflexivity|]). destruct Hc.
  - apply (proj1 (proj2 (proj2 (proj2 (validate_password_rules ascii_isdigit
                                         ascii_isupper (py "password123")))))).
    + vm_compute; discriminate.
    + exists 49%N. split; [|reflexivity].
      apply list_elem_of_In; vm_compute; tauto.
    + intros c Hc%list_elem_of_In. vm_compute in Hc.
      repeat (destruct Hc as [<-|Hc]; [reflexivity|]). destruct Hc.
  - apply (proj2 (proj2 (proj2 (proj2 (validate_password_rules ascii_isdigit
                                         ascii_isupper (py "password123")))))).
    reflexivity.
Defined.

End UserFacts.

(** ** The round trip through the formatted prompt *)

Module RoundTrip.
Import Models StrFacts.

Lemma straddle_free_end (tag sub lit s : str) :
  contains tag s = false → contains tag sub = true →
  straddle_free tag sub lit = true →
  find_nat (s ++ lit) sub = (λ i, length s + i)%nat <$> find_nat lit sub.
Proof.
  intros Hs Hsub H.
  pose proof (straddle_free_skip tag sub lit s [] Hs Hsub H) as G.
  by rewrite app_nil_r in G.
Qed.

(** *** What the formatter writes *)

Lemma append_message_system (f s : str) :
  append_message f (system_message s) = f ++ SYSTEM_TAG ++ nl ++ s ++ nl.
Proof. done. Qed.

Lemma append_message_user (f u : str) :
  append_message f (user_message u) = f ++ USER_TAG ++ nl ++ u ++ nl.
Proof. done. Qed.

Lemma format_user (u : str) (gen : bool) :
  apply_chat_template [user_message u] false gen
  = (USER_TAG ++ nl) ++ u ++ gen_tail gen.
Proof.
  unfold apply_chat_template. cbn [fold_left].
  rewrite append_message_user. unfold gen_tail.
  destruct gen; by rewrite <- ?app_assoc.
Qed.

Lemma format_system_user (s u : str) (gen : bool) :
  apply_chat_template [system_message s; user_message u] false gen
  = (SYSTEM_TAG ++ nl) ++ s ++ (nl ++ USER_TAG ++ nl) ++ u ++ gen_tail gen.
Proof.
  unfold apply_chat_template. cbn [fold_left].
  rewrite append_message_system, append_message_user. unfold gen_tail.
  destruct gen; by rewrite <- ?app_assoc.
Qed.

(** *** What the re-parse reads back *)

(** No system tag is found past the system content. *)
Lemma no_system_tag_after (sub s u : str) (gen : bool) :
  sub = SYSTEM_TAG ∨ sub = SYSTEM_TAG ++ nl →
  contains SYSTEM_TAG s = false → contains SYSTEM_TAG u = false →
  find_nat (s ++ (nl ++ USER_TAG ++ nl) ++ u ++ gen_tail gen) sub = None.
Proof.
  intros Hsub Hs Hu.
  assert (find_nat (gen_tail gen) sub = None) as Ht
    by (destruct Hsub as [-> | ->], gen; literal).
  rewrite (straddle_free_skip SYSTEM_TAG)
    by (done || destruct Hsub as [-> | ->]; literal).
  rewrite lit_free_skip by (destruct Hsub as [-> | ->]; literal).
  rewrite (straddle_free_end SYSTEM_TAG)
    by (done || destruct Hsub as [-> | ->], gen; literal).
  by rewrite Ht.
Qed.

(** The system content lies between "<|system|>\n" and "\n<|user|>". *)
Lemma system_part (s u : str) (gen : bool) :
  contains SYSTEM_TAG s = false → contains USER_TAG s = false →
  contains SYSTEM_TAG u = false →
  ∃ after,
    index (split ((SYSTEM_TAG ++ nl) ++ s ++ (nl ++ USER_TAG ++ nl)
                    ++ u ++ gen_tail gen) (SYSTEM_TAG ++ nl)) 1 = inr after
    ∧ index (split after (nl ++ USER_TAG)) 0 = inr s.
Proof.
  intros Hs Hsu Hu. eexists. split.
  - rewrite (index_split_1 _ _ 0)
      by (done || apply find_nat_here, startswith_app).
    cbn [Nat.add]. rewrite drop_app_length.
    rewrite index_split_0 by done.
    by rewrite (no_system_tag_after _ s u gen) by auto.
  - rewrite index_split_0 by done.
    rewrite (straddle_free_skip USER_TAG) by literal.
    rewrite (find_nat_here ((nl ++ USER_TAG ++ nl) ++ _)) by literal.
    cbn [fmap option_fmap option_map].
    by rewrite Nat.add_0_r, take_app_length.
Qed.

(** The text after "<|user|>\n", cut at "\n<|assistant|>", strips to the
    user content. *)
Lemma user_part (prompt : str) (i : nat) (u : str) (gen : bool) :
  find_nat prompt (USER_TAG ++ nl) = Some i →
  drop (i + 9) prompt = u ++ gen_tail gen →
  contains USER_TAG u = false → contains ASSISTANT_TAG u = false →
  ∃ after before,
    index (split prompt (USER_TAG ++ nl)) 1 = inr after
    ∧ index (split after (nl ++ ASSISTANT_TAG)) 0 = inr before
    ∧ strip before = strip u.
Proof.
  intros Hi Hd Hu Ha. exists (u ++ gen_tail gen).
  assert (index (split prompt (USER_TAG ++ nl)) 1 = inr (u ++ gen_tail gen))
    as ->.
  { rewrite (index_split_1 _ _ i) by done.
    change (length (USER_TAG ++ nl)) with 9%nat. rewrite Hd.
    rewrite index_split_0 by done.
    rewrite (straddle_free_end USER_TAG) by (done || destruct gen; literal).
    by replace (find_nat (gen_tail gen) (USER_TAG ++ nl)) with (@None nat)
      by (destruct gen; literal). }
  rewrite index_split_0 by done.
  rewrite (straddle_free_end ASSISTANT_TAG) by (done || destruct gen; literal).
  destruct gen.
  - replace (find_nat (gen_tail true) (nl ++ ASSISTANT_TAG)) with (Some 0%nat)
      by literal.
    cbn [fmap option_fmap option_map].
    exists u. by rewrite Nat.add_0_r, take_app_length.
  - replace (find_nat (gen_tail false) (nl ++ ASSISTANT_TAG)) with (@None nat)
      by literal.
    cbn [fmap option_fmap option_map].
    exists (u ++ gen_tail false). split; [done|]. split; [done|].
    by apply strip_app_blank.
Qed.

(** Where the first "<|user|>\n" is, with and without a system message. *)
Lemma find_user_tag_alone (u : str) (gen : bool) :
  find_nat ((USER_TAG ++ nl) ++ u ++ gen_tail gen) (USER_TAG ++ nl) = Some 0%nat.
Proof. apply find_nat_here, startswith_app. Qed.

Lemma find_user_tag_after_system (s rest : str) :
  contains USER_TAG s = false →
  find_nat ((SYSTEM_TAG ++ nl) ++ s ++ (nl ++ USER_TAG ++ nl) ++ rest)
    (USER_TAG ++ nl)
  = Some (11 + (length s + 1))%nat.
Proof.
  intros Hs. rewrite lit_free_skip by literal.
  rewrite (straddle_free_skip USER_TAG) by literal.
  by replace (find_nat ((nl ++ USER_TAG ++ nl) ++ rest) (USER_TAG ++ nl))
    with (Some 1%nat) by literal.
Qed.

(** A user message alone shows no system tag. *)
Lemma no_system_tag_alone (u : str) (gen : bool) :
  contains SYSTEM_TAG u = false →
  contains SYSTEM_TAG ((USER_TAG ++ nl) ++ u ++ gen_tail gen) = false.
Proof.
  intros Hu. apply contains_false.
  rewrite lit_free_skip by literal.
  rewrite (straddle_free_end SYSTEM_TAG) by (done || destruct gen; literal).
  by replace (find_nat (gen_tail gen) SYSTEM_TAG) with (@None nat)
    by (destruct gen; literal).
Qed.

(** *** The round trip on the conversations [generate_text] builds *)

Lemma round_trip_user (u : str) (gen : bool) :
  tag_free u →
  round_trip [user_message u] gen = inr [user_message (strip u)].
Proof.
  intros (Hs & Hu & Ha). unfold round_trip. rewrite format_user.
  unfold extract_messages. rewrite (no_system_tag_alone u gen Hs).
  assert (contains USER_TAG ((USER_TAG ++ nl) ++ u ++ gen_tail gen) = true)
    as -> by (apply contains_true, (find_nat_is_Some _ _ 0); literal).
  destruct (user_part _ 0 u gen (find_user_tag_alone u gen)) as
    (after & before & -> & H2 & H3); [by rewrite drop_app_length'|done|done|].
  cbn [mbind result_bind mret result_ret]. rewrite H2.
  cbn [mbind result_bind mret result_ret app]. by rewrite H3.
Qed.

Lemma round_trip_system_user (s u : str) (gen : bool) :
  tag_free s → tag_free u →
  round_trip [system_message s; user_message u] gen
  = inr [system_message (strip s); user_message (strip u)].
Proof.
  intros (Hss & Hsu & Hsa) (Hus & Huu & Hua).
  unfold round_trip. rewrite format_system_user. unfold extract_messages.
  assert (contains SYSTEM_TAG
            ((SYSTEM_TAG ++ nl) ++ s ++ (nl ++ USER_TAG ++ nl) ++ u
               ++ gen_tail gen) = true)
    as -> by (apply contains_true, (find_nat_is_Some _ _ 0); literal).
  assert (contains USER_TAG
            ((SYSTEM_TAG ++ nl) ++ s ++ (nl ++ USER_TAG ++ nl) ++ u
               ++ gen_tail gen) = true)
    as ->.
  { apply contains_spec. exists ((SYSTEM_TAG ++ nl) ++ s ++ nl), (nl ++ u ++ gen_tail gen).
    by rewrite <- !app_assoc. }
  destruct (system_part s u gen Hss Hsu Hus) as (after & -> & H1).
  cbn [mbind result_bind mret result_ret]. rewrite H1.
  destruct (user_part _ _ u gen
              (find_user_tag_after_system s (u ++ gen_tail gen) Hsu)) as
    (after' & before & -> & H2 & H3); [|done|done|].
  { transitivity
      (drop (11 + (length s + 1) + 9)
         (((SYSTEM_TAG ++ nl) ++ s ++ (nl ++ USER_TAG ++ nl))
            ++ u ++ gen_tail gen));
      [by rewrite <- !app_assoc|].
    apply drop_app_length'.
    rewrite !length_app. simpl. lia. }
  cbn [mbind result_bind mret result_ret]. rewrite H2.
  cbn [mbind result_bind mret result_ret app]. by rewrite H3.
Qed.

Lemma format_system (s : str) :
  apply_chat_template [system_message s] false false
  = (SYSTEM_TAG ++ nl) ++ s ++ nl.
Proof.
  unfold apply_chat_template. cbn [fold_left].
  rewrite append_message_system. by rewrite <- ?app_assoc.
Qed.

Lemma round_trip_system (s : str) :
  tag_free s →
  round_trip [system_message s] false = inr [system_message (strip s)].
Proof.
  intros (Hs & Hu & Ha). unfold round_trip. rewrite format_system.
  unfold extract_messages.
  assert (contains SYSTEM_TAG ((SYSTEM_TAG ++ nl) ++ s ++ nl) = true)
    as -> by (apply contains_true, (find_nat_is_Some _ _ 0); literal).
  assert (contains USER_TAG ((SYSTEM_TAG ++ nl) ++ s ++ nl) = false) as ->.
  { apply contains_false. rewrite lit_free_skip by literal.
    by rewrite (straddle_free_end USER_TAG) by literal. }
  rewrite (index_split_1 _ _ 0)
    by (done || apply find_nat_here, startswith_app).
  cbn [Nat.add]. rewrite drop_app_length.
  rewrite index_split_0 by done.
  rewrite (straddle_free_end SYSTEM_TAG) by literal.
  replace (find_nat nl (SYSTEM_TAG ++ nl)) with (@None nat) by literal.
  cbn [fmap option_fmap option_map mbind result_bind mret result_ret].
  rewrite index_split_0 by done.
  rewrite (straddle_free_end USER_TAG) by literal.
  replace (find_nat nl (nl ++ USER_TAG)) with (@None nat) by literal.
  cbn [fmap option_fmap option_map mbind result_bind mret result_ret app].
  by rewrite (strip_app_blank s nl).
Qed.

Lemma trimmed_fixed (l : list Message) :
  trimmed <$> l = l ↔ ∀ m, m ∈ l → strip (content m) = content m.
Proof.
  induction l as [|a l IH]; [by split; [intros _ m ?%elem_of_nil|]|].
  rewrite fmap_cons. split.
  - intros [= Ha Hl] m [-> | Hm]%elem_of_cons.
    + by rewrite <- Ha at 2.
    + by apply IH.
  - intros H. f_equal.
    + destruct a as [r c]. unfold trimmed. simpl. f_equal.
      apply (H {| role := r; content := c |}), list_elem_of_here.
    + apply IH. intros m Hm. by apply H, list_elem_of_further.
Qed.

(** C1, amended: a conversation that is one user message, a system message
    followed by a user message, or (with no generation prompt) one system
    message, and whose contents hold none of the role tags, is re-parsed
    from its formatted prompt with the same roles in the same order and
    with each content stripped of surrounding whitespace; it is
    reconstructed exactly when no content has surrounding whitespace. *)
Theorem round_trip_reparsable (conversation : list Message) (gen : bool) :
  reparsable gen conversation →
  (∀ m, m ∈ conversation → tag_free (content m)) →
  round_trip conversation gen = inr (trimmed <$> conversation)
  ∧ (reconstructs conversation gen
     ↔ ∀ m, m ∈ conversation → strip (content m) = content m).
Proof.
  intros Hshape Hfree.
  assert (Hrt : round_trip conversation gen = inr (trimmed <$> conversation)).
  { destruct Hshape as [gen u | gen s u | s].
    - apply round_trip_user, (Hfree (user_message u)), list_elem_of_here.
    - apply round_trip_system_user.
      + apply (Hfree (system_message s)), list_elem_of_here.
      + apply (Hfree (user_message u)), list_elem_of_further, list_elem_of_here.
    - apply round_trip_system, (Hfree (system_message s)), list_elem_of_here. }
  split; [done|]. unfold reconstructs. rewrite Hrt.
  rewrite <- trimmed_fixed. split; [by intros [= ?]|by intros ->].
Qed.

Lemma round_trip_reparsable_witness :
  round_trip
    [system_message (py "You are helpful"); user_message (py "hi")] true
  = inr (trimmed <$>
           [system_message (py "You are helpful"); user_message (py "hi")]).
Proof.
  refine (proj1 (round_trip_reparsable
                   [system_message (py "You are helpful"); user_message (py "hi")]
                   true (system_user true _ _) _)).
  intros m Hm%list_elem_of_In. cbn in Hm.
  destruct Hm as [<- | [<- | []]]; repeat split.
Defined.

(** C1 as stated fails: an assistant message is dropped; the contents
    come back stripped (the repository's own [system_prompt] loses its
    first and last newline); a user message before the system message is
    re-parsed after it, with the system text left in its content; of two
    user messages one comes back; a content that names a tag makes the
    re-parse raise; and the empty conversation comes back as one empty
    user message. *)
Lemma round_trip_counterexample :
  (forallb known_role
     [system_message (py "You are helpful"); user_message (py "hi");
      assistant_message (py "Hello!")] = true
   ∧ round_trip
       [system_message (py "You are helpful"); user_message (py "hi");
        assistant_message (py "Hello!")] false
     = inr [system_message (py "You are helpful"); user_message (py "hi")]
   ∧ ¬ reconstructs
         [system_message (py "You are helpful"); user_message (py "hi");
          assistant_message (py "Hello!")] false)
  ∧ (round_trip [system_message system_prompt; user_message (py "hi")] true
     = inr [system_message (strip system_prompt); user_message (py "hi")]
     ∧ ¬ reconstructs [system_message system_prompt; user_message (py "hi")]
           true)
  ∧ (round_trip
       [user_message (py "hi"); system_message (py "You are helpful")] false
     = inr [system_message (py "You are helpful");
            user_message (py "hi" ++ nl ++ SYSTEM_TAG ++ nl
                            ++ py "You are helpful")])
  ∧ (round_trip [user_message (py "a"); user_message (py "b")] false
     = inr [user_message (py "a")])
  ∧ (round_trip [user_message (py "a <|system|> b")] true = inl IndexError)
  ∧ (round_trip [] false = inr [user_message []]).
Proof.
  repeat split; try (by vm_compute); intros H; vm_compute in H;
    discriminate H.
Qed.

End RoundTrip.

(** ** When the re-parse raises *)

Module ParseFacts.
Import Models Worlds StrFacts.

(** One tagged step of the re-parse either raises [IndexError], on a
    dangling tag, or yields a value. *)
Lemma tagged_step (tag close prompt : str) (A : Type) (k : str → A) (dflt : A) :
  tag ++ nl ≠ [] → close ≠ [] →
  let step : result A :=
    if contains tag prompt then
      after ← index (split prompt (tag ++ nl)) 1;
      before ← index (split after close) 0;
      mret (k before)
    else mret dflt in
  (step = inl IndexError ∧ dangling tag prompt = true)
  ∨ (∃ x, step = inr x ∧ dangling tag prompt = false).
Proof.
  intros Htag Hclose. unfold dangling. cbv zeta.
  destruct (contains tag prompt); [|right; by eexists].
  destruct (find_nat prompt (tag ++ nl)) as [i|] eqn:F.
  - right. rewrite (index_split_1 _ _ i), index_split_0 by done.
    cbn [mbind result_bind]. rewrite index_split_0 by done.
    eexists. split; [done|].
    assert (contains (tag ++ nl) prompt = true) as ->
      by (apply contains_true; eauto).
    done.
  - left. rewrite split_none by done.
    apply contains_false in F. by rewrite F.
Qed.

(** The re-parse raises exactly on a dangling tag, and then [IndexError]. *)
Lemma extract_messages_raises (prompt : str) (e : exn) :
  extract_messages prompt = inl e ↔
  e = IndexError
  ∧ (dangling SYSTEM_TAG prompt = true ∨ dangling USER_TAG prompt = true).
Proof.
  unfold extract_messages.
  destruct (tagged_step SYSTEM_TAG (nl ++ USER_TAG) prompt (list Message)
              (λ before, [] ++ [{| role := py "system";
                                   content := strip before |}]) [])
    as [[-> ->] | (ms & -> & ->)]; [done|done| |].
  { cbn [mbind result_bind]. split; [intros [= <-]; auto|by intros [-> _]]. }
  cbn [mbind result_bind].
  destruct (tagged_step USER_TAG (nl ++ ASSISTANT_TAG) prompt (list Message)
              (λ before, ms ++ [{| role := py "user";
                                   content := strip before |}]) ms)
    as [[-> ->] | (ms' & -> & ->)]; [done|done| |].
  { cbn [mbind result_bind]. split; [intros [= <-]; auto|by intros [-> _]]. }
  cbn [mbind result_bind mret result_ret].
  split; [done|]. by intros [_ [?|?]].
Qed.

(** X3: [OllamaModel.__call__] ends with [IndexError] before posting
    anything exactly when the prompt holds "<|system|>" or "<|user|>" but
    never followed by a newline. *)
Theorem dangling_tag_raises_before_post (w : World) (self : OllamaModel)
    (prompt : str) (temperature : float) (max_new_tokens : option Z)
    (do_sample : bool) (top_k : option Z) (top_p : option float) :
  dangling SYSTEM_TAG prompt = true ∨ dangling USER_TAG prompt = true ↔
  OllamaModel_call w self prompt temperature max_new_tokens do_sample top_k top_p
  = ([], inl IndexError).
Proof.
  split.
  - intros H. apply RemoteFacts.call_unparsed.
    by apply extract_messages_raises.
  - destruct (extract_messages prompt) as [e|ms] eqn:E.
    + apply extract_messages_raises in E as [_ E]. done.
    + rewrite (RemoteFacts.call_parsed _ _ _ _ _ _ _ _ _ E). by intros [=].
Qed.

Lemma dangling_tag_raises_before_post_witness :
  OllamaModel_call not_found_world (OllamaModel_init (py "qwen3:0.6b"))
    (py "What does <|system|> mean?") 0.7%float None true None None
  = ([], inl IndexError).
Proof.
  apply (proj1 (dangling_tag_raises_before_post not_found_world
                  (OllamaModel_init (py "qwen3:0.6b"))
                  (py "What does <|system|> mean?") 0.7%float None true None
                  None)).
  left. reflexivity.
Defined.

End ParseFacts.

(** ** [generate_text] on the two backends *)

Module GenerateFacts.
Import Models Worlds StrFacts.

(** The module's [system_prompt] names no tag. *)
Lemma system_prompt_tag_free : tag_free system_prompt.
Proof. repeat split; by vm_compute. Qed.

(** On the remote backend [generate_text] is one call of the wrapper,
    followed by the reading of its result. *)
Lemma generate_text_remote (w : World) (self : OllamaModel) (prompt : str)
    (temperature : float) :
  generate_text w (Ollama self) prompt temperature
  = ((OllamaModel_call w self
        (apply_chat_template
           [system_message system_prompt; user_message prompt] false true)
        temperature (Some 256) true (Some 50) (Some 0.95%float)).1,
     predictions ←
       (OllamaModel_call w self
          (apply_chat_template
             [system_message system_prompt; user_message prompt] false true)
          temperature (Some 256) true (Some 50) (Some 0.95%float)).2;
     first ← getitem_index predictions 0;
     getitem_key first (py "generated_text")).
Proof.
  unfold generate_text, tokenizer_apply_chat_template, pipe_call,
    isinstance_OllamaModel.
  change [ {| role := py "system"; content := system_prompt |};
           {| role := py "user"; content := prompt |} ]
    with [system_message system_prompt; user_message prompt].
  cbv beta iota delta [mbind M_bind mret M_ret lift].
  generalize (OllamaModel_call w self
                (apply_chat_template
                   [system_message system_prompt; user_message prompt] false
                   true)
                temperature (Some 256) true (Some 50) (Some 0.95%float)).
  intros [l [e|predictions]]; [done|].
  cbv beta iota delta [fst snd result_bind].
  destruct (getitem_index predictions 0) as [e|first];
    [by rewrite app_nil_r|].
  destruct (getitem_key first (py "generated_text"));
    by rewrite !app_nil_r.
Qed.

(** For a tag-free prompt the wrapper posts the stripped system and user
    messages, and the answer decides the rest. *)
Lemma generate_text_remote_posted (w : World) (self : OllamaModel)
    (prompt : str) (temperature : float) :
  tag_free prompt →
  generate_text w (Ollama self) prompt temperature
  = ([EvHttpPost (base_url self ++ py "/api/chat")
        (generation_payload self prompt temperature)],
     predictions ←
       (response ←
          requests_post w (base_url self ++ py "/api/chat")
            (generation_payload self prompt temperature);
        handle_response response);
     first ← getitem_index predictions 0;
     getitem_key first (py "generated_text")).
Proof.
  intros Hp. rewrite generate_text_remote.
  by rewrite (RemoteFacts.call_parsed _ _ _ _ _ _ _ _ _
                (RoundTrip.round_trip_system_user system_prompt prompt true
                   system_prompt_tag_free Hp)).
Qed.

Lemma dict_get_found (d : list (str * pyval)) (key : str) (v dflt : pyval) :
  dict_lookup d key = inr v → dict_get d key dflt = v.
Proof.
  induction d as [|[k x] d IH]; [done|]. simpl.
  destruct (bool_decide (k = key)); [by intros [= ->]|done].
Qed.

Lemma dict_get_absent (d : list (str * pyval)) (key : str) (dflt : pyval) :
  absent key d = true → dict_get d key dflt = dflt.
Proof.
  unfold absent. induction d as [|[k x] d IH]; [done|]. simpl.
  destruct (bool_decide (k = key)); [done|]. apply IH.
Qed.

(** X4: on the remote backend, for a prompt that names no tag, a 200
    answer whose JSON holds [message.content = t] makes [generate_text]
    return [t] with its reasoning trace stripped, after one request that
    carries the stripped system prompt and the stripped user prompt as its
    two messages. *)
Theorem generate_text_remote_answer (w : World) (self : OllamaModel)
    (prompt : str) (temperature : float) (response : Response)
    (d m : list (str * pyval)) (t : str) :
  tag_free prompt →
  requests_post w (base_url self ++ py "/api/chat")
    (generation_payload self prompt temperature) = inr response →
  status_code response = 200 →
  json response = inr (PDict d) →
  dict_lookup d (py "message") = inr (PDict m) →
  dict_lookup m (py "content") = inr (PStr t) →
  generate_text w (Ollama self) prompt temperature
  = ([EvHttpPost (base_url self ++ py "/api/chat")
        (generation_payload self prompt temperature)],
     inr (PStr (strip_think t))).
Proof.
  intros Hp Hr Hs Hj Hm Hc. rewrite (generate_text_remote_posted _ _ _ _ Hp), Hr.
  cbn [mbind result_bind]. unfold handle_response. rewrite Hs, Hj.
  cbn [Z.eqb Pos.eqb mbind result_bind py_get].
  rewrite (dict_get_found _ _ _ _ Hm). cbn [mbind result_bind py_get].
  by rewrite (dict_get_found _ _ _ _ Hc).
Qed.

Lemma generate_text_remote_answer_witness :
  generate_text (server (ok_response thinking))
    (Ollama (OllamaModel_init (py "qwen3:0.6b"))) (py "hi") 0.7%float
  = ([EvHttpPost (py "http://localhost:11434" ++ py "/api/chat")
        (generation_payload (OllamaModel_init (py "qwen3:0.6b")) (py "hi")
           0.7%float)],
     inr (PStr (strip_think (py "<think>reasoning</think>Hello!")))).
Proof.
  apply (generate_text_remote_answer (server (ok_response thinking))
           (OllamaModel_init (py "qwen3:0.6b")) (py "hi") 0.7%float
           (ok_response thinking)
           [(py "message",
             PDict [(py "content", PStr (py "<think>reasoning</think>Hello!"))])]
           [(py "content", PStr (py "<think>reasoning</think>Hello!"))]);
    try reflexivity.
  repeat split; reflexivity.
Defined.

(** X5: on the remote backend, for a prompt that names no tag, a 200
    answer whose JSON object has no "message", or whose "message" object
    has no "content", makes [generate_text] return the empty string. *)
Theorem generate_text_remote_empty (w : World) (self : OllamaModel)
    (prompt : str) (temperature : float) (response : Response)
    (d : list (str * pyval)) :
  tag_free prompt →
  requests_post w (base_url self ++ py "/api/chat")
    (generation_payload self prompt temperature) = inr response →
  status_code response = 200 →
  json response = inr (PDict d) →
  absent (py "message") d = true
  ∨ (∃ m, dict_lookup d (py "message") = inr (PDict m)
          ∧ absent (py "content") m = true) →
  outcome (generate_text w (Ollama self) prompt temperature) = inr (PStr []).
Proof.
  intros Hp Hr Hs Hj H. rewrite (generate_text_remote_posted _ _ _ _ Hp), Hr.
  cbn [mbind result_bind]. unfold outcome, handle_response. rewrite Hs, Hj.
  cbn [Z.eqb Pos.eqb mbind result_bind py_get snd].
  destruct H as [H | (m & Hm & H)].
  - by rewrite (dict_get_absent _ _ _ H).
  - rewrite (dict_get_found _ _ _ _ Hm). cbn [mbind result_bind py_get].
    by rewrite (dict_get_absent _ _ _ H).
Qed.

Lemma generate_text_remote_empty_witness :
  outcome (generate_text (server (ok_response (PDict [(py "done", PBool true)])))
             (Ollama (OllamaModel_init (py "qwen3:0.6b"))) (py "hi") 0.7%float)
  = inr (PStr []).
Proof.
  apply (generate_text_remote_empty
           (server (ok_response (PDict [(py "done", PBool true)])))
           (OllamaModel_init (py "qwen3:0.6b")) (py "hi") 0.7%float
           (ok_response (PDict [(py "done", PBool true)]))
           [(py "done", PBool true)]); try reflexivity.
  - repeat split; reflexivity.
  - left. reflexivity.
Defined.

(** X6: on the remote backend, for a prompt that names no tag, an error
    raised by the transport reaches the caller of [generate_text] as it
    was raised, after the one request. *)
Theorem generate_text_transport_error (w : World) (self : OllamaModel)
    (prompt : str) (temperature : float) (e : exn) :
  tag_free prompt →
  requests_post w (base_url self ++ py "/api/chat")
    (generation_payload self prompt temperature) = inl e →
  generate_text w (Ollama self) prompt temperature
  = ([EvHttpPost (base_url self ++ py "/api/chat")
        (generation_payload self prompt temperature)],
     inl e).
Proof.
  intros Hp Hr. by rewrite (generate_text_remote_posted _ _ _ _ Hp), Hr.
Qed.

Lemma generate_text_transport_error_witness :
  generate_text failing_runtime (Ollama (OllamaModel_init (py "qwen3:0.6b")))
    (py "hi") 0.7%float
  = ([EvHttpPost (py "http://localhost:11434" ++ py "/api/chat")
        (generation_payload (OllamaModel_init (py "qwen3:0.6b")) (py "hi")
           0.7%float)],
     inl (Foreign "ConnectionError" [])).
Proof.
  apply (generate_text_transport_error failing_runtime
           (OllamaModel_init (py "qwen3:0.6b")) (py "hi") 0.7%float).
  - repeat split; reflexivity.
  - reflexivity.
Defined.

(** X7: one call of [generate_text] reaches one backend at most once: on
    the remote backend it makes no call or one POST to its chat endpoint,
    on the local backend no call or one inference call of its model. *)
Theorem generate_text_one_backend_call (w : World) (pipe : Pipe) (prompt : str)
    (temperature : float) :
  match pipe with
  | Ollama self =>
      trace (generate_text w pipe prompt temperature) = []
      ∨ ∃ body,
          trace (generate_text w pipe prompt temperature)
          = [EvHttpPost (base_url self ++ py "/api/chat") body]
  | HFPipeline model =>
      trace (generate_text w pipe prompt temperature) = []
      ∨ ∃ formatted_prompt,
          trace (generate_text w pipe prompt temperature)
          = [EvLocalInference model formatted_prompt]
  end.
Proof.
  destruct pipe as [model|self].
  - unfold generate_text, tokenizer_apply_chat_template, pipe_call, trace.
    destruct (hf_apply_chat_template w model _ false true) as [e|f];
      [by left|right; exists f].
    cbn. destruct (hf_call w model f _ _ _ _ _) as [e|predictions]; [done|].
    cbn. destruct (getitem_index predictions 0) as [e|first]; [done|].
    cbn. destruct (getitem_key first _) as [e|[]]; try done.
    all: cbn; by destruct (index_last _).
  - rewrite generate_text_remote. unfold trace. cbn [fst].
    destruct (extract_messages
                (apply_chat_template
                   [system_message system_prompt; user_message prompt] false
                   true)) as [e|ms] eqn:E.
    + left. by rewrite (RemoteFacts.call_unparsed _ _ _ _ _ _ _ _ _ E).
    + right. rewrite (RemoteFacts.call_parsed _ _ _ _ _ _ _ _ _ E). eauto.
Qed.

End GenerateFacts.

(** ** More on the stripping step, the formatter and the request body *)

Module WrapperFacts.
Import Models StrFacts.

(** X8: when the first end marker comes before the first start marker,
    the stripping step removes nothing: it keeps the text up to the start
    marker and appends the trimmed text from after the end marker, so the
    text between the two markers appears twice and both markers stay. *)
Theorem strip_think_end_before_start (a b c : str) :
  contains THINK_START a = false → contains THINK_END a = false →
  contains THINK_START b = false →
  strip_think (a ++ THINK_END ++ b ++ THINK_START ++ c)
  = (a ++ THINK_END ++ b) ++ strip (b ++ THINK_START ++ c).
Proof.
  intros Hs He Hb.
  assert (Fs : find_nat (a ++ THINK_END ++ b ++ THINK_START ++ c) THINK_START
               = Some (length (a ++ THINK_END ++ b))).
  { rewrite (straddle_free_skip THINK_START) by literal.
    rewrite lit_free_skip by literal.
    rewrite (straddle_free_skip THINK_START) by literal.
    rewrite (find_nat_here _ _ (startswith_app _ _)).
    cbn [fmap option_fmap option_map]. f_equal. rewrite !length_app. lia. }
  assert (Fe : find_nat (a ++ THINK_END ++ b ++ THINK_START ++ c) THINK_END
               = Some (length a)).
  { rewrite (straddle_free_skip THINK_END) by literal.
    rewrite (find_nat_here _ _ (startswith_app _ _)).
    cbn [fmap option_fmap option_map]. f_equal. lia. }
  rewrite (ThinkFacts.strip_think_found _ _ _ Fs Fe).
  f_equal.
  - replace (a ++ THINK_END ++ b ++ THINK_START ++ c)
      with ((a ++ THINK_END ++ b) ++ THINK_START ++ c)
      by (by rewrite <- !app_assoc).
    apply take_app_length.
  - f_equal.
    replace (a ++ THINK_END ++ b ++ THINK_START ++ c)
      with ((a ++ THINK_END) ++ b ++ THINK_START ++ c)
      by (by rewrite <- !app_assoc).
    apply drop_app_length'. rewrite length_app. done.
Qed.

Lemma strip_think_end_before_start_witness :
  strip_think (py "x" ++ THINK_END ++ py " y " ++ THINK_START ++ py "z")
  = (py "x" ++ THINK_END ++ py " y ") ++ strip (py " y " ++ THINK_START ++ py "z").
Proof.
  apply (strip_think_end_before_start (py "x") (py " y ") (py "z"));
    reflexivity.
Defined.

(** The formatter appends to what it has. *)
Lemma append_message_render (f : str) (m : Message) :
  append_message f m = f ++ render m.
Proof.
  unfold render, append_message.
  repeat case_bool_decide; by rewrite ?app_nil_r.
Qed.

Lemma fold_append_message (msgs : list Message) (f : str) :
  fold_left append_message msgs f = f ++ concat (render <$> msgs).
Proof.
  revert f; induction msgs as [|m msgs IH]; intros f; cbn.
  - by rewrite app_nil_r.
  - by rewrite IH, append_message_render, <- app_assoc.
Qed.

Lemma render_unknown (m : Message) : known_role m = false → render m = [].
Proof.
  unfold known_role, render, append_message.
  repeat case_bool_decide; done.
Qed.

(** X9: [apply_chat_template] passes over every message whose role is not
    "system", "user" or "assistant": the formatted prompt is that of the
    conversation without those messages, and the [tokenize] flag changes
    nothing. *)
Theorem apply_chat_template_skips_unknown_roles (messages : list Message)
    (tokenize tokenize' add_generation_prompt : bool) :
  apply_chat_template messages tokenize add_generation_prompt
  = apply_chat_template (List.filter known_role messages) tokenize'
      add_generation_prompt.
Proof.
  unfold apply_chat_template. rewrite !fold_append_message.
  assert (concat (render <$> messages)
          = concat (render <$> List.filter known_role messages)) as ->; [|done].
  induction messages as [|m messages IH]; [done|].
  cbn. destruct (known_role m) eqn:K; cbn.
  - by rewrite IH.
  - by rewrite (render_unknown m K), IH.
Qed.

(** X10: formatting a conversation made of two parts gives the formatted
    first part, without generation prompt, followed by the formatted
    second part. *)
Theorem apply_chat_template_app (first second : list Message)
    (tokenize add_generation_prompt : bool) :
  apply_chat_template (first ++ second) tokenize add_generation_prompt
  = apply_chat_template first tokenize false
      ++ apply_chat_template second tokenize add_generation_prompt.
Proof.
  unfold apply_chat_template. rewrite !fold_append_message.
  rewrite fmap_app, concat_app.
  destruct add_generation_prompt; cbn; by rewrite <- ?app_assoc.
Qed.

(** X11: the request body holds the keys "model", "messages",
    "temperature" and "stream", a key "max_tokens", "top_p" or "top_k" for
    each of these the caller gave, and no other key; [do_sample] is never
    sent. *)
Theorem build_payload_keys (self : OllamaModel) (messages : list Message)
    (temperature : float) (max_new_tokens : option Z)
    (top_p : option float) (top_k : option Z) (key : str) :
  is_Some (build_payload self messages temperature max_new_tokens top_p top_k
             !! key)
  ↔ key = py "model" ∨ key = py "messages" ∨ key = py "temperature"
    ∨ key = py "stream"
    ∨ (key = py "max_tokens" ∧ is_Some max_new_tokens)
    ∨ (key = py "top_p" ∧ is_Some top_p)
    ∨ (key = py "top_k" ∧ is_Some top_k).
Proof.
  unfold build_payload.
  assert (Hnone : ∀ A : Type, ¬ is_Some (@None A)) by (by intros A [? ?]).
  assert (Hsome : ∀ (A : Type) (x : A), is_Some (Some x)) by eauto.
  destruct max_new_tokens, top_p, top_k;
    rewrite ?lookup_insert_is_Some', lookup_empty;
    (split;
     [ intros H; repeat (destruct H as [<- | H]; [auto 10|]);
       by apply Hnone in H
     | intros H; repeat (destruct H as [H | H]);
       try match type of H with _ ∧ _ => destruct H as [H H'] end;
       subst; auto 10; by apply Hnone in H' ]).
Qed.

End WrapperFacts.

(** ** The local output and the controller of [main.py] *)

Module LocalFacts.
Import Models Worlds StrFacts.

Local Open Scope nat_scope.

(** Two occurrences of a separator without border do not overlap. *)
Lemma occurrences_apart (sep t : str) (i j : nat) :
  border_free sep = true →
  startswith (drop i t) sep = true → startswith (drop j t) sep = true →
  i < j → i + length sep ≤ j.
Proof.
  intros Hb [r Hr]%startswith_spec Hj Hij.
  destruct (decide (i + length sep ≤ j)) as [|Hn]; [done|exfalso].
  replace j with (i + (j - i)) in Hj by lia.
  rewrite <- drop_drop, Hr, drop_app_le in Hj by lia.
  apply startswith_agree in Hj.
  unfold border_free in Hb. rewrite forallb_forall in Hb.
  specialize (Hb (j - i)). rewrite Hj in Hb. discriminate Hb.
  apply in_seq. lia.
Qed.

Lemma split_nonempty (s sep : str) : sep ≠ [] → split s sep ≠ [].
Proof. intros H. rewrite split_unfold by done. by destruct (find_nat s sep). Qed.

Lemma index_last_cons (x : str) (l : list str) :
  l ≠ [] → index_last (x :: l) = index_last l.
Proof. unfold index_last. by destruct l. Qed.

(** After the last separator comes the last segment. *)
Lemma last_segment (sep y : str) :
  sep ≠ [] → border_free sep = true → contains sep y = false →
  ∀ x, index_last (split (x ++ sep ++ y) sep) = inr y.
Proof.
  intros Hsep Hb Hy x.
  remember (length x) as n eqn:Hn. revert x Hn.
  induction n as [n IH] using lt_wf_ind. intros x ->.
  assert (Hat : startswith (drop (length x) (x ++ sep ++ y)) sep = true)
    by (rewrite drop_app_length; apply startswith_app).
  destruct (find_nat_is_Some _ _ _ Hat) as [i Hi].
  destruct (find_nat_Some _ _ _ Hi) as (Si & _ & Hmin).
  assert (i ≤ length x).
  { destruct (decide (i ≤ length x)); [done|].
    rewrite Hmin in Hat by lia. done. }
  assert (0 < length sep) by (destruct sep; [done|simpl; lia]).
  rewrite split_unfold, Hi by done.
  rewrite index_last_cons by (by apply split_nonempty).
  destruct (decide (i = length x)) as [->|].
  - rewrite app_assoc, <- length_app, drop_app_length.
    apply contains_false in Hy. by rewrite split_none.
  - assert (i + length sep ≤ length x)
      by (apply (occurrences_apart sep (x ++ sep ++ y)); [done..|lia]).
    rewrite drop_app_le by done.
    apply (IH (length (drop (i + length sep) x))); [|done].
    rewrite length_drop. lia.
Qed.

(** The pieces of [generate_text] on the local backend. *)
Lemma generate_text_local (w : World) (model prompt : str)
    (temperature : float) (formatted_prompt : str) (predictions first : pyval)
    (g : str) :
  hf_apply_chat_template w model
    [system_message system_prompt; user_message prompt] false true
  = inr formatted_prompt →
  hf_call w model formatted_prompt temperature (Some 256%Z) true (Some 50%Z)
    (Some 0.95%float) = inr predictions →
  getitem_index predictions 0 = inr first →
  getitem_key first (py "generated_text") = inr (PStr g) →
  generate_text w (HFPipeline model) prompt temperature
  = ([EvLocalInference model formatted_prompt],
     PStr <$> index_last (split g TURN_BOUNDARY)).
Proof.
  intros Ht Hc Hf Hg.
  unfold generate_text, tokenizer_apply_chat_template, pipe_call,
    isinstance_OllamaModel.
  change [ {| role := py "system"; content := system_prompt |};
           {| role := py "user"; content := prompt |} ]
    with [system_message system_prompt; user_message prompt].
  rewrite Ht. cbv beta iota delta [mbind M_bind mret M_ret lift].
  rewrite Hc. cbv beta iota. rewrite Hf. cbv beta iota. rewrite Hg.
  cbv beta iota. by destruct (index_last _).
Qed.

(** X12: on the local backend, when the runtime returns a list whose
    first record holds the string [g] under "generated_text",
    [generate_text] returns what follows the last turn boundary
    "</s>\n<|assistant|>\n" in [g], and [g] itself when it holds no
    boundary. *)
Theorem local_output_after_last_boundary (w : World) (model prompt : str)
    (temperature : float) (formatted_prompt : str) (predictions first : pyval)
    (g : str) :
  hf_apply_chat_template w model
    [system_message system_prompt; user_message prompt] false true
  = inr formatted_prompt →
  hf_call w model formatted_prompt temperature (Some 256%Z) true (Some 50%Z)
    (Some 0.95%float) = inr predictions →
  getitem_index predictions 0 = inr first →
  getitem_key first (py "generated_text") = inr (PStr g) →
  (contains TURN_BOUNDARY g = false →
   generate_text w (HFPipeline model) prompt temperature
   = ([EvLocalInference model formatted_prompt], inr (PStr g)))
  ∧ (∀ x y, g = x ++ TURN_BOUNDARY ++ y → contains TURN_BOUNDARY y = false →
     generate_text w (HFPipeline model) prompt temperature
     = ([EvLocalInference model formatted_prompt], inr (PStr y))).
Proof.
  intros Ht Hc Hf Hg.
  rewrite (generate_text_local _ _ _ _ _ _ _ _ Ht Hc Hf Hg). split.
  - intros H%contains_false. by rewrite split_none.
  - intros x y -> Hy. by rewrite last_segment by literal.
Qed.

Lemma local_output_after_last_boundary_witness :
  generate_text echo_runtime (HFPipeline (py "TinyLlama")) (py "hi") 0.7%float
  = ([EvLocalInference (py "TinyLlama")
        ((system_prompt ++ py "</s>" ++ nl)
           ++ (py "hi" ++ py "</s>" ++ nl) ++ ASSISTANT_TAG ++ nl)],
     inr (PStr (py "Hi!"))).
Proof.
  refine (proj2 (local_output_after_last_boundary echo_runtime (py "TinyLlama")
                   (py "hi") 0.7%float _ _ _ _ eq_refl eq_refl eq_refl eq_refl)
            (system_prompt ++ py "</s>" ++ nl ++ py "hi") (py "Hi!") _ _);
    reflexivity.
Defined.

(** The controller always takes the remote backend. *)
Lemma serve_is_remote (w : World) (prompt : str) :
  Main.serve_language_model_controller w prompt
  = generate_text w (Ollama (OllamaModel_init (py "qwen3:0.6b"))) prompt
      0.7%float.
Proof.
  unfold Main.serve_language_model_controller.
  change (load_text_model w (py "ollama:qwen3:0.6b"))
    with (@pair (list event) (result Pipe) []
            (inr (Ollama (OllamaModel_init (py "qwen3:0.6b"))))).
  cbv beta iota delta [mbind M_bind mret M_ret].
  destruct (generate_text w _ prompt _) as [l [e|v]]; [done|].
  by rewrite app_nil_r.
Qed.

(** X13: [serve_language_model_controller] never builds or calls the
    local pipeline: for a prompt that names no tag it posts one request for
    the model "qwen3:0.6b" to the chat endpoint of localhost:11434, and a
    200 answer whose JSON holds [message.content = t] makes it return [t]
    with its reasoning trace stripped. *)
Theorem serve_language_model_controller_answer (w : World) (prompt : str)
    (response : Response) (d m : list (str * pyval)) (t : str) :
  tag_free prompt →
  requests_post w (py "http://localhost:11434" ++ py "/api/chat")
    (generation_payload (OllamaModel_init (py "qwen3:0.6b")) prompt 0.7%float)
  = inr response →
  status_code response = 200%Z →
  json response = inr (PDict d) →
  dict_lookup d (py "message") = inr (PDict m) →
  dict_lookup m (py "content") = inr (PStr t) →
  Main.serve_language_model_controller w prompt
  = ([EvHttpPost (py "http://localhost:11434" ++ py "/api/chat")
        (generation_payload (OllamaModel_init (py "qwen3:0.6b")) prompt
           0.7%float)],
     inr (PStr (strip_think t))).
Proof.
  intros Hp Hr Hs Hj Hm Hc. rewrite serve_is_remote.
  rewrite (GenerateFacts.generate_text_remote_posted _ _ _ _ Hp).
  change (base_url (OllamaModel_init (py "qwen3:0.6b")))
    with (py "http://localhost:11434").
  rewrite Hr. cbn [mbind result_bind]. unfold handle_response.
  rewrite Hs, Hj. cbn [Z.eqb Pos.eqb mbind result_bind py_get].
  rewrite (GenerateFacts.dict_get_found _ _ _ _ Hm).
  cbn [mbind result_bind py_get].
  by rewrite (GenerateFacts.dict_get_found _ _ _ _ Hc).
Qed.

Lemma serve_language_model_controller_answer_witness :
  Main.serve_language_model_controller (server (ok_response thinking))
    (py "hi")
  = ([EvHttpPost (py "http://localhost:11434" ++ py "/api/chat")
        (generation_payload (OllamaModel_init (py "qwen3:0.6b")) (py "hi")
           0.7%float)],
     inr (PStr (strip_think (py "<think>reasoning</think>Hello!")))).
Proof.
  apply (serve_language_model_controller_answer (server (ok_response thinking))
           (py "hi") (ok_response thinking)
           [(py "message",
             PDict [(py "content", PStr (py "<think>reasoning</think>Hello!"))])]
           [(py "content", PStr (py "<think>reasoning</think>Hello!"))]);
    try reflexivity.
  repeat split; reflexivity.
Defined.

End LocalFacts.

(** ** More on the user and chat controllers *)

Module ControllerFacts.
Import StrFacts.

Section Validation.

Variables isdigit isupper : char → bool.

(** X14: a password of at least 8 characters with a digit and an
    uppercase letter makes [POST /users] answer with the user name and
    "Account successfully created", without any external call; the
    password is no part of the answer. *)
Theorem post_users_accepts (name pass : str) :
  8 ≤ len pass →
  (∃ c, c ∈ pass ∧ isdigit c = true) →
  (∃ c, c ∈ pass ∧ isupper c = true) →
  UserApi.post_users isdigit isupper name pass
  = ([], inr (PDict [ (py "name", PStr name);
                      (py "message", PStr (py "Account successfully created")) ])).
Proof.
  intros Hl Hd%UserFacts.existsb_elem Hu%UserFacts.existsb_elem.
  unfold UserApi.post_users, UserApi.UserCreate_validate.
  by rewrite (UserFacts.validate_ok isdigit isupper pass Hl Hd Hu).
Qed.

(** What an accepted password satisfies. *)
Lemma validate_password_accepted (value v : str) :
  UserApi.validate_password isdigit isupper value = inr v →
  v = value ∧ 8 ≤ len value ∧ existsb isdigit value = true
  ∧ existsb isupper value = true.
Proof.
  destruct (Z.ltb_spec (len value) 8) as [Hl|Hl];
    [by rewrite UserFacts.validate_short|].
  destruct (existsb isdigit value) eqn:Hd;
    [|by rewrite UserFacts.validate_no_digit].
  destruct (existsb isupper value) eqn:Hu;
    [|by rewrite UserFacts.validate_no_upper].
  rewrite UserFacts.validate_ok by done. by intros [= <-].
Qed.

(** X15: an accepted password stays accepted when characters are added
    before or after it. *)
Theorem validate_password_extends (value v before after : str) :
  UserApi.validate_password isdigit isupper value = inr v →
  UserApi.validate_password isdigit isupper (before ++ value ++ after)
  = inr (before ++ value ++ after).
Proof.
  intros (_ & Hl & Hd & Hu)%validate_password_accepted.
  apply UserFacts.validate_ok.
  - unfold len in *. rewrite !length_app. lia.
  - by rewrite !existsb_app, Hd, orb_true_r.
  - by rewrite !existsb_app, Hu, orb_true_r.
Qed.

End Validation.

Lemma post_users_accepts_witness :
  UserApi.post_users UserApi.ascii_isdigit UserApi.ascii_isupper (py "john")
    (py "Password123")
  = ([], inr (PDict [ (py "name", PStr (py "john"));
                      (py "message", PStr (py "Account successfully created")) ])).
Proof.
  apply (post_users_accepts UserApi.ascii_isdigit UserApi.ascii_isupper
           (py "john") (py "Password123")).
  - vm_compute. discriminate.
  - exists 49%N. split; [|reflexivity]. apply list_elem_of_In; vm_compute; tauto.
  - exists 80%N. split; [|reflexivity]. apply list_elem_of_In; vm_compute; tauto.
Defined.

Lemma validate_password_extends_witness :
  UserApi.validate_password UserApi.ascii_isdigit UserApi.ascii_isupper
    (py "my " ++ py "Password123" ++ py "!")
  = inr (py "my " ++ py "Password123" ++ py "!").
Proof.
  apply (validate_password_extends UserApi.ascii_isdigit UserApi.ascii_isupper
           (py "Password123") (py "Password123") (py "my ") (py "!")).
  reflexivity.
Defined.

(** What [strip] leaves has no whitespace at either end. *)
Lemma lstrip_head (x : str) (c : char) :
  head (lstrip x) = Some c → isspace c = false.
Proof.
  induction x as [|a x IH]; [done|]. simpl.
  destruct (isspace a) eqn:E; [done|]. by intros [= <-].
Qed.

Lemma last_rev (l : str) : last (rev l) = head l.
Proof. destruct l as [|a l]; [done|]. simpl. by rewrite last_snoc. Qed.

Lemma strip_head (s : str) (c : char) :
  head (strip s) = Some c → isspace c = false.
Proof.
  unfold strip. destruct (lstrip s) as [|h y] eqn:E; [done|].
  assert (Hh : isspace h = false) by (apply (lstrip_head s); by rewrite E).
  pose proof (rstrip_app_char [] h y Hh) as G. cbn [app] in G.
  rewrite G. by intros [= <-].
Qed.

Lemma strip_last (s : str) (c : char) :
  last (strip s) = Some c → isspace c = false.
Proof. unfold strip, rstrip. rewrite last_rev. apply lstrip_head. Qed.

(** X16: when the chat client answers, [chat_controller] raises
    [IndexError] on an empty list of choices and [AttributeError] on a
    first choice whose content is [None]; otherwise it answers with the
    stripped content of the first choice as "statement", which neither
    starts nor ends with whitespace. *)
Theorem chat_controller_statement (create : ChatApi.Client) (prompt : str)
    (response : ChatApi.ChatCompletion) :
  create (py "gpt-3.5-turbo")
    [ system_message (py "You are a helpful assistant.");
      user_message prompt ] = inr response →
  match ChatApi.choices response with
  | [] => ChatApi.chat_controller create prompt = inl IndexError
  | {| ChatApi.message_content := None |} :: _ =>
      ChatApi.chat_controller create prompt = inl AttributeError
  | {| ChatApi.message_content := Some text |} :: _ =>
      ChatApi.chat_controller create prompt
      = inr (PDict [(py "statement", PStr (strip text))])
      ∧ (∀ c, head (strip text) = Some c → isspace c = false)
      ∧ (∀ c, last (strip text) = Some c → isspace c = false)
  end.
Proof.
  intros H. unfold ChatApi.chat_controller.
  change [ {| role := py "system"; content := py "You are a helpful assistant." |};
           {| role := py "user"; content := prompt |} ]
    with [ system_message (py "You are a helpful assistant.");
           user_message prompt ].
  rewrite H. cbn [mbind result_bind].
  destruct (ChatApi.choices response) as [|[[text|]] rest]; [done| |done].
  split; [done|]. split; [apply strip_head|apply strip_last].
Qed.

Lemma chat_controller_statement_witness :
  ChatApi.chat_controller
    (λ _ _, inr {| ChatApi.choices :=
                     [{| ChatApi.message_content := Some (py "  Carpe diem. ") |}] |})
    (py "Inspire me")
  = inr (PDict [(py "statement", PStr (strip (py "  Carpe diem. ")))]).
Proof.
  refine (proj1 (chat_controller_statement
                   (λ _ _, inr {| ChatApi.choices :=
                                    [{| ChatApi.message_content :=
                                          Some (py "  Carpe diem. ") |}] |})
                   (py "Inspire me") _ eq_refl)).
Defined.

End ControllerFacts.

(** ** The user-messages API of [2-4-mod.py] *)

Module MessagesFacts.
Import MessagesApi.

Lemma first_user_found (db : Database) (e : str) (user : UserModel) :
  first_user_by_email db e = Some user →
  user ∈ users db ∧ email user = Some e.
Proof.
  unfold first_user_by_email. intros [Hin H]%find_some.
  split; [by apply list_elem_of_In|]. by apply bool_decide_eq_true in H.
Qed.

Lemma first_user_missing (db : Database) (e : str) :
  first_user_by_email db e = None ↔ ∀ u, u ∈ users db → email u ≠ Some e.
Proof.
  unfold first_user_by_email. split.
  - intros H u Hu%list_elem_of_In.
    by apply (find_none _ _ H), bool_decide_eq_false in Hu.
  - intros H. destruct (List.find _ _) as [u|] eqn:F; [|done].
    apply find_some in F as [Hin F]. apply bool_decide_eq_true in F.
    by apply list_elem_of_In, H in Hin.
Qed.

(** X17: both look-ups by email raise the 404 "User with email ... not
    found" exactly when no user row has that email; otherwise they find
    the same user row with that email, and [get_user_messages] returns
    exactly the message rows whose [user_id] is that user's [id]. *)
Theorem lookup_by_email (db : Database) (e : str) :
  ((∀ u, u ∈ users db → email u ≠ Some e) ↔
   get_user_messages db e
   = inl (Http 404 (py "User with email " ++ e ++ py " not found")))
  ∧ ((∀ u, u ∈ users db → email u ≠ Some e) ↔
     get_user_with_messages db e
     = inl (Http 404 (py "User with email " ++ e ++ py " not found")))
  ∧ ((∃ u, u ∈ users db ∧ email u = Some e) →
     ∃ user found,
       get_user_with_messages db e = inr user
       ∧ get_user_messages db e = inr found
       ∧ user ∈ users db ∧ email user = Some e
       ∧ ∀ m, m ∈ found ↔ m ∈ messages db ∧ user_id m = Some (id user)).
Proof.
  unfold get_user_messages, get_user_with_messages.
  rewrite <- first_user_missing.
  destruct (first_user_by_email db e) as [user|] eqn:F.
  - split; [done|]. split; [done|]. intros _.
    destruct (first_user_found _ _ _ F) as [Hin He].
    exists user. eexists. split; [done|]. split; [done|].
    split; [done|]. split; [done|]. intros m.
    by rewrite !list_elem_of_In, filter_In, bool_decide_eq_true.
  - split; [done|]. split; [done|]. intros (u & Hu & He).
    by apply (proj1 (first_user_missing db e) F) in Hu.
Qed.

Lemma lookup_by_email_witness :
  ∃ user found,
    get_user_with_messages (add_sample_data empty_db) (py "john@example.com")
    = inr user
    ∧ get_user_messages (add_sample_data empty_db) (py "john@example.com")
      = inr found
    ∧ user ∈ users (add_sample_data empty_db)
    ∧ email user = Some (py "john@example.com")
    ∧ ∀ m, m ∈ found ↔
           m ∈ messages (add_sample_data empty_db)
           ∧ user_id m = Some (id user).
Proof.
  apply (proj2 (proj2 (lookup_by_email (add_sample_data empty_db)
                         (py "john@example.com")))).
  exists {| id := 1; email := Some (py "john@example.com");
            name := Some (py "John Doe") |}.
  split; [apply list_elem_of_here|reflexivity].
Defined.

Lemma add_sample_data_populated (db : Database) :
  users db ≠ [] → add_sample_data db = db.
Proof.
  intros H. unfold add_sample_data.
  destruct (users db) as [|u l]; [done|].
  by destruct (Z.gtb_spec (Z.of_nat (length (u :: l))) 0);
    [|simpl length in *; lia].
Qed.

Lemma add_sample_data_has_users (db : Database) :
  users (add_sample_data db) ≠ [].
Proof.
  destruct (users db) as [|u l] eqn:E.
  - unfold add_sample_data, add_user, add_message. rewrite E. simpl.
    by destruct (users db).
  - rewrite add_sample_data_populated; by rewrite E.
Qed.

(** X18: [add_sample_data] is idempotent and only ever appends: running
    it again (as every start-up does) changes nothing, a database that
    already has a user is left as it is, and the rows that were there stay
    at the front of both tables. *)
Theorem add_sample_data_idempotent (db : Database) :
  add_sample_data (add_sample_data db) = add_sample_data db
  ∧ (users db ≠ [] → add_sample_data db = db)
  ∧ (∃ new_users, users (add_sample_data db) = users db ++ new_users)
  ∧ (∃ new_messages,
       messages (add_sample_data db) = messages db ++ new_messages).
Proof.
  split; [|split; [|split]].
  - apply add_sample_data_populated, add_sample_data_has_users.
  - apply add_sample_data_populated.
  - destruct (users db) as [|u l] eqn:E.
    + unfold add_sample_data, add_user, add_message. rewrite E. simpl.
      eauto.
    + rewrite add_sample_data_populated by (by rewrite E).
      exists []. by rewrite E, app_nil_r.
  - destruct (users db) as [|u l] eqn:E.
    + unfold add_sample_data, add_user, add_message. rewrite E. simpl.
      rewrite <- !app_assoc. eauto.
    + rewrite add_sample_data_populated by (by rewrite E).
      exists []. by rewrite app_nil_r.
Qed.

Lemma add_sample_data_idempotent_witness :
  add_sample_data (add_sample_data empty_db) = add_sample_data empty_db.
Proof. apply (proj1 (add_sample_data_idempotent empty_db)). Defined.

(** X19: on a database without users, [add_sample_data] stores the two
    sample users with ids 1 and 2 and appends three messages, the first two
    owned by the first user and the third by the second, whatever the
    messages table held. *)
Theorem add_sample_data_links_messages (db : Database) :
  users db = [] →
  users (add_sample_data db)
  = [ {| id := 1; email := Some (py "john@example.com");
         name := Some (py "John Doe") |};
      {| id := 2; email := Some (py "jane@example.com");
         name := Some (py "Jane Smith") |} ]
  ∧ ∃ m1 m2 m3,
      messages (add_sample_data db) = messages db ++ [m1; m2; m3]
      ∧ user_id m1 = Some 1 ∧ user_id m2 = Some 1 ∧ user_id m3 = Some 2
      ∧ message_content m1 = Some (py "Hello, this is my first message")
      ∧ message_content m2 = Some (py "Another message from me")
      ∧ message_content m3 = Some (py "Hi there, I'm Jane").
Proof.
  intros E. unfold add_sample_data, add_user, add_message. rewrite E. simpl.
  split; [done|]. do 3 eexists. rewrite <- !app_assoc. simpl.
  split; [done|]. by repeat split.
Qed.

Lemma add_sample_data_links_messages_witness :
  users (add_sample_data empty_db)
  = [ {| id := 1; email := Some (py "john@example.com");
         name := Some (py "John Doe") |};
      {| id := 2; email := Some (py "jane@example.com");
         name := Some (py "Jane Smith") |} ].
Proof.
  apply (proj1 (add_sample_data_links_messages empty_db eq_refl)).
Defined.

End MessagesFacts.
